(** * ufo: the CSV backend of the data extractor

    A shallow embedding of [src/ufo/utils/dataextractor/DataExtractorCSVBackend.cc]
    (the anonymous-namespace helpers [AppendValueVisitor],
    [ConvertToEigenArrayVisitor], [findPayloadColumn], [createColumn] and the
    method [DataExtractorCSVBackend::loadData]) and the properties that the
    specification of the table loader states about it.

    C++ exceptions are modelled with an error monad: a function that may throw
    returns [throws A].  Vectors are lists, [std::unordered_map] is stdpp's
    [gmap], [boost::variant] is an inductive type, and loops over an index are
    structural recursions that carry the index. *)

From Stdlib Require Import ZArith String Ascii List Lia.
From Stdlib Require Import Floats.SpecFloat.
From stdpp Require Import base option list strings gmap.

Local Open Scope string_scope.
Local Open Scope Z_scope.
Local Open Scope nat_scope.

(** ** Errors and the error monad *)

(** The kinds of failure of one load call.  The source throws
    [eckit::UserError] with a message (and [eckit::NotImplemented] in the
    visitor that should never run); the constructors are named after the
    kinds the specification gives to these messages.  [InsufficientData] and
    [NoDataLoaded] carry the same message in the source ("No data could be
    loaded from the file"): the first is thrown at line 148, the second at
    line 215.  [MalformedNumericLiteral] stands for the exception that the
    numeric conversion of eckit::Value raises; the loader does not catch it. *)
Inductive LoadError : Type :=
  | InsufficientData
  | NoPayloadColumnFound
  | AmbiguousPayloadColumn
  | HeaderColumnCountMismatch
  | PayloadMustBeNumeric
  | UnsupportedColumnType (type : string)
  | DataRowColumnCountMismatch (line : nat)
  | MalformedNumericLiteral
  | NotImplemented
  | NoDataLoaded.

Inductive throws (A : Type) : Type :=
  | Ok (a : A)
  | Throw (e : LoadError).
Arguments Ok {A} a.
Arguments Throw {A} e.

Definition bind {A B : Type} (c : throws A) (k : A -> throws B) : throws B :=
  match c with
  | Ok a => k a
  | Throw e => Throw e
  end.

Notation "'let*' x ':=' c 'in' k" := (bind c (fun x => k))
  (at level 10, x pattern, c at level 100, k at level 200).

(** ** The external collaborators

    The loader calls four libraries whose code is not part of the backend:
    eckit (the conversions of a cell, [eckit::Value::as<T>]), the C++
    conversions between the numeric types, oops ([util::missingValue]) and
    ioda ([ioda::convertV1PathToV2Path]).  They are the fields of a class, so
    that every theorem about the loader holds for whatever these functions
    compute.  A cell of the decoded file is its text (the specification's
    RawGrid is a sequence of sequences of text cells), so
    [as<std::string>()] is the identity; the two numeric conversions may
    throw, which is [None] here. *)
Class Collaborators : Type := {
  (** the C++ types [double] and [float] *)
  double : Type;
  float : Type;
  (** [value_.as<long long>()] *)
  as_longlong : string -> option Z;
  (** [value_.as<double>()] *)
  as_double : string -> option double;
  (** [static_cast<float>(double)] *)
  double_to_float : double -> float;
  (** the implicit conversion of [output_(i, 0) = values[i]] for an [int] *)
  int_to_float : Z -> float;
  (** [util::missingValue] at [int], [float] and [std::string] *)
  missing_int : Z;
  missing_float : float;
  missing_string : string;
  (** [ioda::convertV1PathToV2Path] *)
  convertV1PathToV2Path : string -> string
}.

(** ** Constants *)

(** Number of header rows in CSV files. *)
Definition numHeaderRows : nat := 2.

(** Representation of missing values in CSV files. *)
Definition missingValuePlaceholder : string := "_".

(** [static_cast<int>] of a [long long]: the value modulo 2^32, read as a
    signed 32-bit integer. *)
Definition static_cast_int (v : Z) : Z :=
  ((v + 2 ^ 31) mod 2 ^ 32 - 2 ^ 31)%Z.

(** ** Typed columns *)

(** Modelled from the spec: [DataExtractorInput::Coordinate], declared in
    DataExtractorInput.h; a tagged variant over three sequences (of integers,
    of floats, of text), as the three overloads of the visitors take them. *)
Inductive Coordinate {C : Collaborators} : Type :=
  | IntColumn (values : list Z)
  | FloatColumn (values : list float)
  | StringColumn (values : list string).

Definition columnSize {C : Collaborators} (c : Coordinate) : nat :=
  match c with
  | IntColumn values => length values
  | FloatColumn values => length values
  | StringColumn values => length values
  end.

(** [createColumn<T>(numValues)]: an empty vector; the reserved capacity
    cannot be observed. *)
Definition createColumn {A : Type} (numValues : nat) : list A := [].

(** ** AppendValueVisitor *)

Section Decoder.
Context {C : Collaborators}.

(** The value that [operator()(std::vector<int> &)] pushes back. *)
Definition intValue (value_ : string) : throws Z :=
  if String.eqb value_ missingValuePlaceholder then Ok missing_int
  else match as_longlong value_ with
       | Some v => Ok (static_cast_int v)
       | None => Throw MalformedNumericLiteral
       end.

(** The value that [operator()(std::vector<float> &)] pushes back. *)
Definition floatValue (value_ : string) : throws float :=
  if String.eqb value_ missingValuePlaceholder then Ok missing_float
  else match as_double value_ with
       | Some v => Ok (double_to_float v)
       | None => Throw MalformedNumericLiteral
       end.

(** The value that [operator()(std::vector<std::string> &)] pushes back. *)
Definition stringValue (value_ : string) : string :=
  if String.eqb value_ missingValuePlaceholder then missing_string
  else value_.

(** [boost::apply_visitor(AppendValueVisitor(value_), column)]. *)
Definition AppendValueVisitor (value_ : string) (column : Coordinate)
  : throws Coordinate :=
  match column with
  | IntColumn values =>
      let* value := intValue value_ in
      Ok (IntColumn (values ++ [value]))
  | FloatColumn values =>
      let* value := floatValue value_ in
      Ok (FloatColumn (values ++ [value]))
  | StringColumn values =>
      Ok (StringColumn (values ++ [stringValue value_]))
  end.

(** [boost::apply_visitor(ConvertToEigenArrayVisitor(output), column)]:
    the output is resized to [values.size()] rows and one column, and row
    [i] receives [values[i]], converted to [float].  An array is the list of
    its rows. *)
Definition ConvertToEigenArrayVisitor (column : Coordinate)
  : throws (list (list float)) :=
  match column with
  | IntColumn values => Ok (map (fun v => [int_to_float v]) values)
  | FloatColumn values => Ok (map (fun v => [v]) values)
  | StringColumn _ => Throw NotImplemented
  end.
End Decoder.

(** ** findPayloadColumn *)

(** Modelled from the spec: [eckit::StringTools::beginsWith(str, substr)],
    "[str] begins with [substr]". *)
Definition beginsWith (str substr : string) : bool := String.prefix substr str.

(** Modelled from the spec: [eckit::StringTools::endsWith(str, substr)],
    "[str] ends with [substr]": the last [substr.size()] characters of [str]
    are [substr]. *)
Definition endsWith (str substr : string) : bool :=
  if String.length str <? String.length substr then false
  else String.eqb
         (substring (String.length str - String.length substr)
                    (String.length substr) str)
         substr.

(** The lambda [isInPayloadGroup] of [findPayloadColumn]. *)
Definition isInPayloadGroup (payloadGroup : string) (name : string) : bool :=
  let prefix := payloadGroup +:+ "/" in
  let suffix := "@" +:+ payloadGroup in
  beginsWith name prefix || endsWith name suffix.

(** [std::find_if(first, last, p) - first]; the length of the range when no
    element satisfies [p]. *)
Fixpoint find_if {A : Type} (p : A -> bool) (l : list A) : nat :=
  match l with
  | [] => 0
  | x :: l' => if p x then 0 else S (find_if p l')
  end.

(** [std::any_of]. *)
Definition any_of {A : Type} (p : A -> bool) (l : list A) : bool := existsb p l.

Definition findPayloadColumn (columnNames : list string) (payloadGroup : string)
  : throws nat :=
  let payloadColumnIt := find_if (isInPayloadGroup payloadGroup) columnNames in
  if payloadColumnIt =? length columnNames then Throw NoPayloadColumnFound
  else if any_of (isInPayloadGroup payloadGroup)
                 (drop (payloadColumnIt + 1) columnNames)
       then Throw AmbiguousPayloadColumn
       else Ok payloadColumnIt.

(** ** DataExtractorCSVBackend::loadData *)

(** Modelled from the spec: [DataExtractorInput], declared in
    DataExtractorInput.h, with the four members that [loadData] writes: the
    payload array (the list of its rows), the values of the coordinate
    columns by name, the dimension of each coordinate and, for each
    dimension, the names of its coordinates. *)
Record DataExtractorInput {C : Collaborators} : Type := mkInput {
  payloadArray : list (list float);
  coordsVals : gmap string Coordinate;
  coord2DimMapping : gmap string nat;
  dim2CoordMapping : list (list string)
}.

Section Loader.
Context {C : Collaborators}.

(** A default-constructed [DataExtractorInput]. *)
Definition emptyInput : DataExtractorInput :=
  {| payloadArray := []; coordsVals := ∅; coord2DimMapping := ∅;
     dim2CoordMapping := [] |}.

(** The body of the allocation loop (lines 174-185) for one column. *)
Definition allocateColumn (payloadColumnIndex numValues column : nat)
    (type : string) : throws Coordinate :=
  if String.eqb type "string" || String.eqb type "datetime" then
    if column =? payloadColumnIndex then Throw PayloadMustBeNumeric
    else Ok (StringColumn (createColumn numValues))
  else if String.eqb type "int" || String.eqb type "integer" then
    Ok (IntColumn (createColumn numValues))
  else if String.eqb type "float" then
    Ok (FloatColumn (createColumn numValues))
  else Throw (UnsupportedColumnType type).

(** The allocation loop (lines 173-186), from index [column] on; the
    argument [typeHeader] holds the type tags that are still to be read. *)
Fixpoint allocateColumns (payloadColumnIndex numValues column : nat)
    (typeHeader : list string) : throws (list Coordinate) :=
  match typeHeader with
  | [] => Ok []
  | type :: typeHeader' =>
      let* c := allocateColumn payloadColumnIndex numValues column type in
      let* columns := allocateColumns payloadColumnIndex numValues
                        (S column) typeHeader' in
      Ok (c :: columns)
  end.

(** The inner loop of the row loop (lines 196-197): the visitor is applied
    to cell [column] and column [column], for every column. *)
Fixpoint appendRow (rowContents : list string) (columns : list Coordinate)
    : throws (list Coordinate) :=
  match rowContents, columns with
  | value :: rowContents', c :: columns' =>
      let* c' := AppendValueVisitor value c in
      let* columns'' := appendRow rowContents' columns' in
      Ok (c' :: columns'')
  | _, _ => Ok columns
  end.

(** The test of line 191: the row is one empty cell. *)
Definition isEmptyLine (rowContents : list string) : bool :=
  (length rowContents =? 1) && String.eqb (rowContents !!! 0) "".

(** The row loop (lines 189-198), from row index [row] on; [rows] holds the
    rows that are still to be read. *)
Fixpoint loadRows (numColumns row : nat) (rows : list (list string))
    (columns : list Coordinate) : throws (list Coordinate) :=
  match rows with
  | [] => Ok columns
  | rowContents :: rows' =>
      if isEmptyLine rowContents then
        loadRows numColumns (S row) rows' columns
      else if negb (length rowContents =? numColumns) then
        Throw (DataRowColumnCountMismatch (1 + row))
      else
        let* columns' := appendRow rowContents columns in
        loadRows numColumns (S row) rows' columns'
  end.

Definition firstDim : nat := 0.

(** The body of the last loop (lines 204-211) for one column. *)
Definition storeColumn (payloadColumnIndex column : nat) (columnName : string)
    (c : Coordinate) (result : DataExtractorInput) : throws DataExtractorInput :=
  if column =? payloadColumnIndex then
    let* output := ConvertToEigenArrayVisitor c in
    Ok {| payloadArray := output;
          coordsVals := coordsVals result;
          coord2DimMapping := coord2DimMapping result;
          dim2CoordMapping := dim2CoordMapping result |}
  else
    Ok {| payloadArray := payloadArray result;
          coordsVals := <[columnName := c]> (coordsVals result);
          coord2DimMapping := <[columnName := firstDim]> (coord2DimMapping result);
          dim2CoordMapping :=
            alter (fun names : list string => (names ++ [columnName])%list) firstDim
                  (dim2CoordMapping result) |}.

(** The last loop (lines 203-212), from index [column] on. *)
Fixpoint storeColumns (payloadColumnIndex column : nat)
    (columnNames : list string) (columns : list Coordinate)
    (result : DataExtractorInput) : throws DataExtractorInput :=
  match columnNames, columns with
  | columnName :: columnNames', c :: columns' =>
      let* result' := storeColumn payloadColumnIndex column columnName c result in
      storeColumns payloadColumnIndex (S column) columnNames' columns' result'
  | _, _ => Ok result
  end.

(** [loadData], on the decoded contents of the file: the list of its rows,
    each the list of its cells. *)
Definition loadData (contents : list (list string))
    (interpolatedArrayGroup : string) : throws DataExtractorInput :=
  let numRows := length contents in
  if numRows <=? numHeaderRows then Throw InsufficientData else
  let numValues := numRows - numHeaderRows in
  (* Read column names from the first line *)
  let nameHeader := contents !!! 0 in
  let numColumns := length nameHeader in
  let columnNames := nameHeader in
  let* payloadColumnIndex := findPayloadColumn columnNames interpolatedArrayGroup in
  let columnNames := map convertV1PathToV2Path columnNames in
  (* Read data types from the second line *)
  let typeHeader := contents !!! 1 in
  if negb (length typeHeader =? numColumns) then Throw HeaderColumnCountMismatch else
  (* Allocate vectors for values to be loaded from subsequent lines *)
  let* columns := allocateColumns payloadColumnIndex numValues 0 typeHeader in
  (* Load values from the rest of the CSV file *)
  let* columns := loadRows numColumns numHeaderRows
                    (drop numHeaderRows contents) columns in
  (* Store the loaded data in the result object *)
  let result :=
    {| payloadArray := payloadArray emptyInput;
       coordsVals := coordsVals emptyInput;
       coord2DimMapping := coord2DimMapping emptyInput;
       dim2CoordMapping := [[]] |} in
  let* result := storeColumns payloadColumnIndex 0 columnNames columns result in
  if length (payloadArray result) =? 0 then Throw NoDataLoaded
  else Ok result.
End Loader.

(** ** A reference instance of the collaborators

    An executable stand-in for the external libraries, on which the loader
    can be run on concrete files.  [double] and [float] are the IEEE 754
    binary64 and binary32 formats of the Standard Library's [SpecFloat];
    integer literals are an optional sign and decimal digits, floating-point
    literals an optional sign, decimal digits and an optional fraction.  The
    general theorems below do not depend on this instance. *)
Module Reference.

Definition digitValue (c : ascii) : option Z :=
  let n := nat_of_ascii c in
  if (48 <=? n) && (n <=? 57) then Some (Z.of_nat (n - 48)) else None.

Fixpoint digits (s : string) (acc : Z) : option Z :=
  match s with
  | EmptyString => Some acc
  | String c s' =>
      match digitValue c with
      | Some d => digits s' (10 * acc + d)%Z
      | None => None
      end
  end.

Definition unsignedLiteral (s : string) : option Z :=
  match s with
  | EmptyString => None
  | _ => digits s 0%Z
  end.

Definition splitSign (s : string) : bool * string :=
  match s with
  | String "-" s' => (true, s')
  | String "+" s' => (false, s')
  | _ => (false, s)
  end.

Definition parse_longlong (s : string) : option Z :=
  let (negative, body) := splitSign s in
  match unsignedLiteral body with
  | Some n =>
      let v := if negative then (- n)%Z else n in
      if ((- 2 ^ 63 <=? v) && (v <? 2 ^ 63))%Z then Some v else None
  | None => None
  end.

Definition binary64 (m e : Z) (szero : bool) : spec_float :=
  binary_normalize 53 1024 m e szero.

Definition binary32 (m e : Z) (szero : bool) : spec_float :=
  binary_normalize 24 128 m e szero.

Definition parse_double (s : string) : option spec_float :=
  let (negative, body) := splitSign s in
  let (whole, fraction) :=
    match index 0 "." body with
    | Some i =>
        (substring 0 i body,
         substring (i + 1) (String.length body - i - 1) body)
    | None => (body, EmptyString)
    end in
  match unsignedLiteral (whole +:+ fraction) with
  | Some n =>
      Some (SFdiv 53 1024
              (binary64 (if negative then (- n)%Z else n) 0 negative)
              (binary64 (10 ^ Z.of_nat (String.length fraction)) 0 false))
  | None => None
  end.

Definition narrow (x : spec_float) : spec_float :=
  match x with
  | S754_finite s m e => binary32 (cond_Zopp s (Z.pos m)) e s
  | _ => x
  end.

(** "var@Group" becomes "Group/var"; a name without '@' is unchanged. *)
Definition v1_to_v2 (path : string) : string :=
  match index 0 "@" path with
  | Some i =>
      substring (i + 1) (String.length path - i - 1) path +:+ "/"
        +:+ substring 0 i path
  | None => path
  end.

#[export] Instance collaborators : Collaborators := {|
  double := spec_float;
  float := spec_float;
  as_longlong := parse_longlong;
  as_double := parse_double;
  double_to_float := narrow;
  int_to_float := fun v => binary32 v 0 false;
  missing_int := (- 2147483643)%Z;
  missing_float := S754_finite true 16777215 104;
  missing_string := "MISSING*";
  convertV1PathToV2Path := v1_to_v2
|}.

(** The value of a finite float as a fraction [(numerator, denominator)]. *)
Definition fraction_of (x : spec_float) : option (Z * Z) :=
  match x with
  | S754_zero _ => Some (0, 1)%Z
  | S754_finite s m e =>
      let g := Z.gcd (Z.pos m) (2 ^ (- e)) in
      if (e <? 0)%Z then Some (cond_Zopp s (Z.pos m) / g, 2 ^ (- e) / g)%Z
      else Some (cond_Zopp s (Z.pos m) * 2 ^ e, 1)%Z
  | _ => None
  end.

End Reference.

(** ** The naming convention of the payload column, in the specification's
    words *)

(** A column name is in the payload group when it begins with the label
    followed by '/' or ends with '@' followed by the label. *)
Definition inPayloadGroup (payloadGroupLabel name : string) : Prop :=
  (exists rest, name = (payloadGroupLabel +:+ "/") +:+ rest) \/
  (exists front, name = front +:+ ("@" +:+ payloadGroupLabel)).

(** ** Concrete files *)

(** The file of the specification's concrete scenario, loaded with the
    payload group [ErrorInflation]. *)
Definition scenario : list (list string) :=
  [["station"; "pressure@ErrorInflation"];
   ["string"; "float"];
   ["A"; "1.5"];
   ["B"; "2.25"]].

(** The same file with a blank line between its two data rows. *)
Definition scenario_blank : list (list string) :=
  [["station"; "pressure@ErrorInflation"];
   ["string"; "float"];
   ["A"; "1.5"];
   [""];
   ["B"; "2.25"]].

(** The same header with an integer payload and a missing value. *)
Definition scenario_int : list (list string) :=
  [["station"; "count@ErrorInflation"];
   ["string"; "int"];
   ["A"; "3"];
   ["B"; "_"]].

(** A file whose header rows differ in length and in which no column name
    is in the payload group [G]. *)
Definition mismatched_headers : list (list string) :=
  [["a"]; ["int"; "int"]; ["1"]].

(** A file that names two coordinate columns alike. *)
Definition repeated_name : list (list string) :=
  [["a"; "a"; "p@G"]; ["int"; "int"; "float"]; ["1"; "2"; "3.5"]].

(** ** The file grammar, in the specification's words *)

(** The declared type of a column. *)
Inductive ColumnTypeTag : Type := Integer | Float | Text.

(** The tags of the second header row: [string] and [datetime] declare a
    text column, [int] and [integer] an integer column, [float] a float
    column; any other tag is unsupported. *)
Definition tagOf (type : string) : option ColumnTypeTag :=
  if String.eqb type "string" || String.eqb type "datetime" then Some Text
  else if String.eqb type "int" || String.eqb type "integer" then Some Integer
  else if String.eqb type "float" then Some Float
  else None.

Definition supportedType (type : string) : bool :=
  match tagOf type with Some _ => true | None => false end.

Definition numericType (type : string) : bool :=
  match tagOf type with
  | Some Integer | Some Float => true
  | _ => false
  end.

(** A blank line: exactly one cell, the empty string. *)
Definition blankRow (row : list string) : bool := bool_decide (row = [""]).

(** The data rows of a file, and those of them that are not blank. *)
Definition dataRows (contents : list (list string)) : list (list string) :=
  drop numHeaderRows contents.

Definition nonBlank (rows : list (list string)) : list (list string) :=
  List.filter (fun row => negb (blankRow row)) rows.

Section Grammar.
Context {C : Collaborators}.

Definition kindOf (c : Coordinate) : ColumnTypeTag :=
  match c with
  | IntColumn _ => Integer
  | FloatColumn _ => Float
  | StringColumn _ => Text
  end.

(** The empty column of a declared type. *)
Definition columnOfType (type : string) : Coordinate :=
  match tagOf type with
  | Some Integer => IntColumn []
  | Some Float => FloatColumn []
  | _ => StringColumn []
  end.

(** A cell can be decoded in a column of the declared type: it is the
    placeholder, or the column is a text column, or the cell is a numeric
    literal of the declared kind. *)
Definition cellDecodes (type cell : string) : bool :=
  match tagOf type with
  | Some Integer =>
      String.eqb cell missingValuePlaceholder ||
      match as_longlong cell with Some _ => true | None => false end
  | Some Float =>
      String.eqb cell missingValuePlaceholder ||
      match as_double cell with Some _ => true | None => false end
  | Some Text => true
  | None => false
  end.

(** A data row of the grammar: a blank line, or one cell per declared
    column, each decodable in its column. *)
Definition rowWellFormed (types : list string) (row : list string) : bool :=
  blankRow row ||
  ((length row =? length types) &&
   forallb (fun tc => cellDecodes tc.1 tc.2) (zip types row)).

(** Well-formed header rows: the same length, exactly one column name in
    the payload group, supported type tags, and a numeric tag for the
    payload column. *)
Definition headerWellFormed (names types : list string)
    (payloadGroupLabel : string) : bool :=
  (length (List.filter (isInPayloadGroup payloadGroupLabel) names) =? 1)
  && (length types =? length names)
  && forallb supportedType types
  && forallb (fun nt => negb (isInPayloadGroup payloadGroupLabel nt.1)
                        || numericType nt.2) (zip names types).

(** A well-formed file: well-formed header rows, well-formed data rows, and
    at least one data row that is not blank. *)
Definition wellFormed (contents : list (list string))
    (payloadGroupLabel : string) : bool :=
  match contents with
  | names :: types :: rows =>
      headerWellFormed names types payloadGroupLabel
      && forallb (rowWellFormed types) rows
      && negb (length (nonBlank rows) =? 0)
  | _ => false
  end.

(** A cell of a column declared numeric that is neither the placeholder nor
    a numeric literal of the declared kind. *)
Definition unparseable (type cell : string) : bool :=
  negb (String.eqb cell missingValuePlaceholder) &&
  match tagOf type with
  | Some Integer =>
      match as_longlong cell with Some _ => false | None => true end
  | Some Float =>
      match as_double cell with Some _ => false | None => true end
  | _ => false
  end.

(** The value of the payload array for one cell of the payload column:
    the value that the column type decoder appends, as a [float]. *)
Definition payloadValue (type cell : string) : throws float :=
  match tagOf type with
  | Some Integer => let* v := intValue cell in Ok (int_to_float v)
  | Some Float => floatValue cell
  | _ => Throw PayloadMustBeNumeric
  end.

(** What one column receives from the row loop: the visitor applied to its
    cells, in row order. *)
Fixpoint appendCells (cells : list string) (c : Coordinate)
    : throws Coordinate :=
  match cells with
  | [] => Ok c
  | value :: cells' =>
      let* c' := AppendValueVisitor value c in
      appendCells cells' c'
  end.
End Grammar.

(** The elements of a list other than the one at index [payloadColumnIndex],
    for a list whose first element has index [column]. *)
Fixpoint otherColumns {A : Type} (payloadColumnIndex column : nat) (l : list A)
    : list A :=
  match l with
  | [] => []
  | x :: l' =>
      if column =? payloadColumnIndex
      then otherColumns payloadColumnIndex (S column) l'
      else x :: otherColumns payloadColumnIndex (S column) l'
  end.

(** ** Definitions for the further properties *)

(** Two type tags that the allocation loop does not tell apart: the same
    tag, or two supported tags of the same kind ([string] and [datetime],
    [int] and [integer]). *)
Definition sameTag (type type' : string) : bool :=
  String.eqb type type' ||
  match tagOf type, tagOf type' with
  | Some Integer, Some Integer | Some Float, Some Float | Some Text, Some Text => true
  | _, _ => false
  end.

(** The values of two columns of the same kind, one after the other. *)
Definition columnApp {C : Collaborators} (c1 c2 : Coordinate) : Coordinate :=
  match c1, c2 with
  | IntColumn v1, IntColumn v2 => IntColumn (v1 ++ v2)
  | FloatColumn v1, FloatColumn v2 => FloatColumn (v1 ++ v2)
  | StringColumn v1, StringColumn v2 => StringColumn (v1 ++ v2)
  | _, _ => c1
  end.

(** [l'] is [l] with its element of index [p] moved to index [p']: the same
    element there, and the same list once it is removed. *)
Definition movedTo {A : Type} (p p' : nat) (l l' : list A) : Prop :=
  is_Some (l !! p) /\ l !! p = l' !! p' /\ delete p l = delete p' l'.

(** A data row and the same row with the cell of column [p] moved to column
    [p']; a blank line is left as it is. *)
Definition rowMovedTo (p p' : nat) (row row' : list string) : Prop :=
  (blankRow row = true /\ row' = row) \/
  (blankRow row = false /\ movedTo p p' row row').

(** The index in [l] of the element of index [i] of [delete p l]. *)
Definition skip (p i : nat) : nat := if i <? p then i else S i.

(** * Properties *)

(** ** Strings *)

Lemma prefix_true_iff (p s : string) :
  String.prefix p s = true <-> exists rest, s = p +:+ rest.
Proof.
  revert s; induction p as [|a p IH]; intros s.
  - destruct s; simpl; split; eauto.
  - destruct s as [|b s]; simpl.
    + split; [discriminate | intros [rest H]; discriminate].
    + destruct (ascii_dec a b) as [->|Hab].
      * rewrite IH. split; intros [rest H]; exists rest.
        -- by rewrite H.
        -- by inversion H.
      * split; [discriminate | intros [rest H]; inversion H; congruence].
Qed.

Lemma substring_whole (s : string) : substring 0 (String.length s) s = s.
Proof. induction s; simpl; [done | by f_equal]. Qed.

Lemma append_cons (a : ascii) (s t : string) :
  String a s +:+ t = String a (s +:+ t).
Proof. reflexivity. Qed.

Lemma substring_after (p s : string) :
  substring (String.length p) (String.length s) (p +:+ s) = s.
Proof. induction p; [apply substring_whole | rewrite append_cons; simpl; done]. Qed.

Lemma substring_split (s : string) (n : nat) :
  n <= String.length s ->
  s = substring 0 n s +:+ substring n (String.length s - n) s.
Proof.
  revert n; induction s as [|a s IH]; intros [|n] Hn; simpl in *; try lia.
  - done.
  - by rewrite substring_whole.
  - rewrite append_cons. f_equal. apply IH. lia.
Qed.

Lemma length_append (s t : string) :
  String.length (s +:+ t) = String.length s + String.length t.
Proof. induction s; [done | rewrite append_cons; simpl; by f_equal]. Qed.

Lemma endsWith_true_iff (str substr : string) :
  endsWith str substr = true <-> exists front, str = front +:+ substr.
Proof.
  unfold endsWith. split.
  - destruct (Nat.ltb_spec (String.length str) (String.length substr));
      [discriminate|].
    intros Heq%String.eqb_eq.
    exists (substring 0 (String.length str - String.length substr) str).
    pose proof (substring_split str (String.length str - String.length substr))
      as Hsplit.
    replace (String.length str - (String.length str - String.length substr))
      with (String.length substr) in Hsplit by lia.
    rewrite Heq in Hsplit. apply Hsplit. lia.
  - intros [front ->]. rewrite length_append.
    destruct (Nat.ltb_spec (String.length front + String.length substr)
                (String.length substr)); [lia|].
    replace (String.length front + String.length substr
             - String.length substr) with (String.length front) by lia.
    rewrite substring_after. apply String.eqb_refl.
Qed.

Lemma isInPayloadGroup_iff (payloadGroup name : string) :
  isInPayloadGroup payloadGroup name = true <-> inPayloadGroup payloadGroup name.
Proof.
  unfold isInPayloadGroup, inPayloadGroup, beginsWith.
  rewrite orb_true_iff, prefix_true_iff, endsWith_true_iff. done.
Qed.

(** ** find_if and any_of *)

Lemma find_if_le {A : Type} (p : A -> bool) (l : list A) :
  find_if p l <= length l.
Proof. induction l as [|x l IH]; simpl; [lia | destruct (p x); simpl; lia]. Qed.

Lemma find_if_none {A : Type} (p : A -> bool) (l : list A) :
  find_if p l = length l <-> List.filter p l = [].
Proof.
  induction l as [|x l IH]; simpl; [done|].
  destruct (p x); simpl; [split; [lia | discriminate]|].
  rewrite <- IH. lia.
Qed.

Lemma find_if_some {A : Type} (p : A -> bool) (l : list A) :
  find_if p l < length l ->
  exists x, l !! find_if p l = Some x /\ p x = true /\
    List.filter p l = x :: List.filter p (drop (find_if p l + 1) l) /\
    forall j y, j < find_if p l -> l !! j = Some y -> p y = false.
Proof.
  induction l as [|x l IH]; simpl; [lia|].
  destruct (p x) eqn:Hx; simpl.
  - intros _. exists x. rewrite drop_0. repeat split; [done | lia].
  - intros Hlt. destruct IH as (y & Hy & Hpy & Hf & Hbefore); [lia|].
    exists y. repeat split; try done.
    intros [|j] z Hj Hz; simpl in Hz.
    + by inversion Hz; subst.
    + apply (Hbefore j); [lia | done].
Qed.

Lemma any_of_false {A : Type} (p : A -> bool) (l : list A) :
  any_of p l = false <-> List.filter p l = [].
Proof.
  unfold any_of. induction l as [|x l IH]; simpl; [done|].
  destruct (p x); simpl; [split; discriminate | done].
Qed.

Lemma filter_nil_lookup {A : Type} (p : A -> bool) (l : list A) j y :
  List.filter p l = [] -> l !! j = Some y -> p y = false.
Proof.
  revert j; induction l as [|x l IH]; intros j; simpl; [done|].
  destruct (p x) eqn:Hx; [discriminate|].
  intros Hf. destruct j as [|j]; simpl; [by intros [= <-] | by apply IH].
Qed.

(** ** The payload column locator *)

(** With exactly one matching name, the locator returns its index. *)
Lemma findPayloadColumn_unique (columnNames : list string) (payloadGroup : string) :
  length (List.filter (isInPayloadGroup payloadGroup) columnNames) = 1 ->
  exists i name,
    findPayloadColumn columnNames payloadGroup = Ok i /\
    columnNames !! i = Some name /\
    isInPayloadGroup payloadGroup name = true /\
    forall j other, columnNames !! j = Some other ->
      isInPayloadGroup payloadGroup other = true -> j = i.
Proof.
  intros Hone. unfold findPayloadColumn.
  set (p := isInPayloadGroup payloadGroup) in *.
  pose proof (find_if_le p columnNames) as Hle.
  destruct (Nat.eqb_spec (find_if p columnNames) (length columnNames)) as [He|Hne].
  { apply find_if_none in He. rewrite He in Hone. discriminate. }
  destruct (find_if_some p columnNames) as (x & Hx & Hpx & Hf & Hbefore); [lia|].
  rewrite Hf in Hone. simpl in Hone.
  assert (Hrest : List.filter p (drop (find_if p columnNames + 1) columnNames) = []).
  { destruct (List.filter p _); [done | simpl in Hone; lia]. }
  rewrite (proj2 (any_of_false p _) Hrest).
  exists (find_if p columnNames), x. repeat split; try done.
  intros j other Hj Hother.
  destruct (Nat.lt_trichotomy j (find_if p columnNames)) as [Hlt|[Heq|Hgt]];
    [|done|].
  - rewrite (Hbefore j other Hlt Hj) in Hother. discriminate.
  - assert (Hd : drop (find_if p columnNames + 1) columnNames
                   !! (j - (find_if p columnNames + 1)) = Some other).
    { rewrite lookup_drop. rewrite <- Hj. f_equal. lia. }
    rewrite (filter_nil_lookup p _ _ _ Hrest Hd) in Hother. discriminate.
Qed.

Lemma findPayloadColumn_none (columnNames : list string) (payloadGroup : string) :
  length (List.filter (isInPayloadGroup payloadGroup) columnNames) = 0 ->
  findPayloadColumn columnNames payloadGroup = Throw NoPayloadColumnFound.
Proof.
  intros Hzero. unfold findPayloadColumn.
  destruct (List.filter _ columnNames) eqn:Hf; [|discriminate].
  apply find_if_none in Hf. rewrite Hf, Nat.eqb_refl. done.
Qed.

Lemma findPayloadColumn_many (columnNames : list string) (payloadGroup : string) :
  2 <= length (List.filter (isInPayloadGroup payloadGroup) columnNames) ->
  findPayloadColumn columnNames payloadGroup = Throw AmbiguousPayloadColumn.
Proof.
  intros Hmany. unfold findPayloadColumn.
  set (p := isInPayloadGroup payloadGroup) in *.
  pose proof (find_if_le p columnNames) as Hle.
  destruct (Nat.eqb_spec (find_if p columnNames) (length columnNames)) as [He|Hne].
  { apply find_if_none in He. rewrite He in Hmany. simpl in Hmany. lia. }
  destruct (find_if_some p columnNames) as (x & Hx & Hpx & Hf & _); [lia|].
  rewrite Hf in Hmany. simpl in Hmany.
  destruct (any_of p _) eqn:Hany; [done|].
  apply any_of_false in Hany. rewrite Hany in Hmany. simpl in Hmany. lia.
Qed.

(** C2.  A name matches exactly when it begins with the label followed by
    '/' or ends with '@' followed by the label; the locator fails with
    NoPayloadColumnFound when no name matches, with AmbiguousPayloadColumn
    when two or more match, and otherwise returns the index of the only
    matching name. *)
Theorem findPayloadColumn_spec (columnNames : list string) (payloadGroup : string) :
  (forall name,
     isInPayloadGroup payloadGroup name = true <-> inPayloadGroup payloadGroup name) /\
  (length (List.filter (isInPayloadGroup payloadGroup) columnNames) = 0 ->
   findPayloadColumn columnNames payloadGroup = Throw NoPayloadColumnFound) /\
  (2 <= length (List.filter (isInPayloadGroup payloadGroup) columnNames) ->
   findPayloadColumn columnNames payloadGroup = Throw AmbiguousPayloadColumn) /\
  (length (List.filter (isInPayloadGroup payloadGroup) columnNames) = 1 ->
   exists i name,
     findPayloadColumn columnNames payloadGroup = Ok i /\
     columnNames !! i = Some name /\
     isInPayloadGroup payloadGroup name = true /\
     forall j other, columnNames !! j = Some other ->
       isInPayloadGroup payloadGroup other = true -> j = i).
Proof.
  split; [intros name; apply isInPayloadGroup_iff|].
  split; [apply findPayloadColumn_none|].
  split; [apply findPayloadColumn_many | apply findPayloadColumn_unique].
Qed.

(** ** The column type decoder *)

(** C5.  A cell equal to the placeholder appends the missing-integer
    sentinel to an integer column, the missing-float sentinel to a float
    column and the missing-text sentinel to a text column, whatever the
    numeric conversions of the cell would do (they may throw on the
    placeholder: they are not called). *)
Theorem placeholder_appends_missing {C : Collaborators} :
  (forall values,
     AppendValueVisitor missingValuePlaceholder (IntColumn values)
     = Ok (IntColumn (values ++ [missing_int]))) /\
  (forall values,
     AppendValueVisitor missingValuePlaceholder (FloatColumn values)
     = Ok (FloatColumn (values ++ [missing_float]))) /\
  (forall values,
     AppendValueVisitor missingValuePlaceholder (StringColumn values)
     = Ok (StringColumn (values ++ [missing_string]))).
Proof. repeat split. Qed.

(** ** The table assembler: unfolding [loadData] *)

Section LoaderProperties.
Context {C : Collaborators}.

Lemma loadData_short (contents : list (list string)) (g : string) :
  length contents <= numHeaderRows -> loadData contents g = Throw InsufficientData.
Proof.
  intros Hle. unfold loadData.
  destruct (Nat.leb_spec (length contents) numHeaderRows); [done | lia].
Qed.

Lemma loadData_rows (names types row : list string) (rows : list (list string))
    (g : string) :
  loadData (names :: types :: row :: rows) g =
  let* payloadColumnIndex := findPayloadColumn names g in
  if negb (length types =? length names) then Throw HeaderColumnCountMismatch else
  let* columns := allocateColumns payloadColumnIndex (S (length rows)) 0 types in
  let* columns := loadRows (length names) numHeaderRows (row :: rows) columns in
  let* result := storeColumns payloadColumnIndex 0
                   (map convertV1PathToV2Path names) columns
                   (mkInput C [] ∅ ∅ [[]]) in
  if length (payloadArray result) =? 0 then Throw NoDataLoaded else Ok result.
Proof. reflexivity. Qed.

(** ** Allocation of the columns *)

Lemma allocateColumn_tagOf (p numValues column : nat) (type : string) :
  allocateColumn p numValues column type =
  match tagOf type with
  | Some Text =>
      if column =? p then Throw PayloadMustBeNumeric else Ok (StringColumn [])
  | Some Integer => Ok (IntColumn [])
  | Some Float => Ok (FloatColumn [])
  | None => Throw (UnsupportedColumnType type)
  end.
Proof.
  unfold allocateColumn, tagOf, createColumn.
  destruct (String.eqb type "string" || String.eqb type "datetime"); [done|].
  destruct (String.eqb type "int" || String.eqb type "integer"); [done|].
  by destruct (String.eqb type "float").
Qed.

Lemma allocateColumn_Ok (p numValues column : nat) (type : string) c :
  allocateColumn p numValues column type = Ok c ->
  c = columnOfType type /\ supportedType type = true /\
  (column = p -> numericType type = true).
Proof.
  rewrite allocateColumn_tagOf. unfold columnOfType, supportedType, numericType.
  destruct (tagOf type) as [[| |]|]; try done; try (by intros [= <-]).
  destruct (Nat.eqb_spec column p); [done|]. by intros [= <-].
Qed.

(** The allocation loop succeeds exactly on supported tags with a numeric
    tag for the payload column, and then returns one empty column per tag. *)
Lemma allocateColumns_Ok (p numValues column : nat) (types : list string) columns :
  allocateColumns p numValues column types = Ok columns ->
  columns = map columnOfType types /\
  forallb supportedType types = true /\
  (forall type, column <= p -> types !! (p - column) = Some type ->
     numericType type = true).
Proof.
  revert column columns; induction types as [|type types IH];
    intros column columns; simpl.
  - intros [= <-]. done.
  - destruct (allocateColumn p numValues column type) as [c|] eqn:Hc;
      simpl; [|done].
    destruct (allocateColumns p numValues (S column) types) as [cs|] eqn:Hcs;
      simpl; [|done].
    intros [= <-].
    apply allocateColumn_Ok in Hc as (-> & Hsup & Hnum).
    destruct (IH _ _ Hcs) as (-> & Hsups & Hnums).
    rewrite Hsup, Hsups. repeat split; try done.
    intros type' Hle. destruct (p - column) as [|d] eqn:Hd; simpl.
    + intros [= <-]. apply Hnum. lia.
    + intros Hl. apply Hnums; [lia|]. by replace (p - S column) with d by lia.
Qed.

Lemma allocateColumns_supported (p numValues column : nat) (types : list string) :
  forallb supportedType types = true ->
  (forall type, column <= p -> types !! (p - column) = Some type ->
     numericType type = true) ->
  allocateColumns p numValues column types = Ok (map columnOfType types).
Proof.
  revert column; induction types as [|type types IH]; intros column; simpl;
    [done|].
  intros [Hsup Hsups]%andb_true_iff Hnum.
  rewrite allocateColumn_tagOf, IH; [|done|].
  - unfold supportedType in Hsup. unfold columnOfType.
    destruct (tagOf type) as [[| |]|] eqn:Htag; try done.
    destruct (Nat.eqb_spec column p) as [->|]; [|done].
    specialize (Hnum type (Nat.le_refl _)). rewrite Nat.sub_diag in Hnum.
    specialize (Hnum eq_refl). unfold numericType in Hnum.
    by rewrite Htag in Hnum.
  - intros type' Hle Hl. apply Hnum; [lia|].
    replace (p - column) with (S (p - S column)) by lia. done.
Qed.

(** A text tag on the payload column stops the allocation loop, when the
    tags of the columns before it are supported. *)
Lemma allocateColumns_text_payload (p numValues column : nat)
    (types : list string) (type : string) :
  column <= p ->
  types !! (p - column) = Some type ->
  tagOf type = Some Text ->
  forallb supportedType (take (p - column) types) = true ->
  allocateColumns p numValues column types = Throw PayloadMustBeNumeric.
Proof.
  revert column; induction types as [|type0 types IH]; intros column Hle;
    simpl; [done|].
  destruct (p - column) as [|d] eqn:Hd; simpl.
  - intros [= ->] Htag _. rewrite allocateColumn_tagOf, Htag.
    replace column with p by lia. by rewrite Nat.eqb_refl.
  - intros Hl Htag [Hsup Hsups]%andb_true_iff.
    rewrite (IH (S column)); try done; try lia;
      try by replace (p - S column) with d by lia.
    rewrite allocateColumn_tagOf. unfold supportedType in Hsup.
    destruct (tagOf type0) as [[| |]|]; try done.
    destruct (Nat.eqb_spec column p); [lia | done].
Qed.

Lemma tagOf_text (type : string) :
  type = "string" \/ type = "datetime" -> tagOf type = Some Text.
Proof. by intros [-> | ->]. Qed.

Lemma findPayloadColumn_lt (names : list string) (g : string) (p : nat) :
  findPayloadColumn names g = Ok p -> p < length names.
Proof.
  unfold findPayloadColumn.
  pose proof (find_if_le (isInPayloadGroup g) names).
  destruct (Nat.eqb_spec (find_if (isInPayloadGroup g) names) (length names));
    [done|].
  destruct (any_of _ _); [done|]. intros [= <-]. lia.
Qed.

(** C4.  When the payload column is declared [string] or [datetime], the
    load fails with PayloadMustBeNumeric in the allocation loop, whatever
    the data rows are (they are not read): for every file with at least one
    data row whose header rows have the same length, whose payload column
    is located, and in which the tags of the columns before the payload
    column are supported. *)
Theorem text_payload_fails_at_allocation
    (names types : list string) (rows : list (list string))
    (g : string) (p : nat) (type : string) :
  rows <> [] ->
  findPayloadColumn names g = Ok p ->
  length types = length names ->
  types !! p = Some type ->
  type = "string" \/ type = "datetime" ->
  forallb supportedType (take p types) = true ->
  allocateColumns p (length rows) 0 types = Throw PayloadMustBeNumeric /\
  loadData (names :: types :: rows) g = Throw PayloadMustBeNumeric.
Proof.
  intros Hrows Hp Hlen Htype Htext Hbefore.
  assert (Halloc : forall numValues,
             allocateColumns p numValues 0 types = Throw PayloadMustBeNumeric).
  { intros numValues.
    apply (allocateColumns_text_payload p numValues 0 types type);
      rewrite ?Nat.sub_0_r; auto using tagOf_text with lia. }
  split; [apply Halloc|].
  destruct rows as [|row rows]; [done|].
  rewrite loadData_rows, Hp. simpl.
  rewrite Hlen, Nat.eqb_refl. simpl. by rewrite Halloc.
Qed.

(** C7, as the code has it.  The payload column is located before the
    length of the type row is compared with that of the name row: in a file
    of at least three rows whose header rows differ in length, the load
    fails with NoPayloadColumnFound when no column name matches, with
    AmbiguousPayloadColumn when two or more match, and with
    HeaderColumnCountMismatch only when exactly one matches. *)
Theorem locator_runs_before_header_check
    (names types : list string) (rows : list (list string)) (g : string) :
  rows <> [] ->
  length types <> length names ->
  (length (List.filter (isInPayloadGroup g) names) = 0 ->
   loadData (names :: types :: rows) g = Throw NoPayloadColumnFound) /\
  (2 <= length (List.filter (isInPayloadGroup g) names) ->
   loadData (names :: types :: rows) g = Throw AmbiguousPayloadColumn) /\
  (length (List.filter (isInPayloadGroup g) names) = 1 ->
   loadData (names :: types :: rows) g = Throw HeaderColumnCountMismatch).
Proof.
  intros Hrows Hlen. destruct rows as [|row rows]; [done|].
  rewrite loadData_rows. repeat split; intros Hcount.
  - by rewrite findPayloadColumn_none.
  - by rewrite findPayloadColumn_many.
  - destruct (findPayloadColumn_unique names g Hcount) as (i & _ & -> & _).
    simpl. by destruct (Nat.eqb_spec (length types) (length names)).
Qed.
End LoaderProperties.

(** ** The row loop *)

Section RowLoop.
Context {C : Collaborators}.

Lemma isEmptyLine_blankRow (row : list string) : isEmptyLine row = blankRow row.
Proof.
  unfold isEmptyLine, blankRow.
  destruct row as [|cell [|cell' row]]; simpl; try done.
  - destruct (String.eqb_spec cell ""); case_bool_decide; congruence.
  - by case_bool_decide.
Qed.

Lemma AppendValueVisitor_kind (value : string) (c c' : Coordinate) :
  AppendValueVisitor value c = Ok c' ->
  kindOf c' = kindOf c /\ columnSize c' = S (columnSize c).
Proof.
  destruct c as [values|values|values]; simpl.
  - destruct (intValue value); simpl; [|done].
    intros [= <-]. simpl. rewrite length_app. simpl. split; [done | lia].
  - destruct (floatValue value); simpl; [|done].
    intros [= <-]. simpl. rewrite length_app. simpl. split; [done | lia].
  - intros [= <-]. simpl. rewrite length_app. simpl. split; [done | lia].
Qed.

Lemma AppendValueVisitor_error (value : string) (c : Coordinate) e :
  AppendValueVisitor value c = Throw e -> e = MalformedNumericLiteral.
Proof.
  destruct c as [values|values|values]; simpl; [| |done].
  - unfold intValue. destruct (String.eqb _ _); [done|].
    destruct (as_longlong value); simpl; [done | congruence].
  - unfold floatValue. destruct (String.eqb _ _); [done|].
    destruct (as_double value); simpl; [done | congruence].
Qed.

Lemma appendRow_Ok (row : list string) (columns columns' : list Coordinate) :
  appendRow row columns = Ok columns' ->
  length row = length columns ->
  length columns' = length columns /\
  forall j c, columns !! j = Some c ->
    exists c', columns' !! j = Some c' /\
               AppendValueVisitor (row !!! j) c = Ok c'.
Proof.
  revert columns columns'; induction row as [|value row IH];
    intros [|c columns] columns'; simpl; try done.
  - intros [= <-] _. done.
  - destruct (AppendValueVisitor value c) as [c1|] eqn:Hc; simpl; [|done].
    destruct (appendRow row columns) as [columns1|] eqn:Hrow; simpl; [|done].
    intros [= <-] [= Hlen]. destruct (IH _ _ Hrow Hlen) as [Hlen' Hcols].
    split; [simpl; lia|].
    intros [|j] c0; simpl.
    + intros [= <-]. eauto.
    + apply Hcols.
Qed.

Lemma appendRow_error (row : list string) (columns : list Coordinate) e :
  appendRow row columns = Throw e -> e = MalformedNumericLiteral.
Proof.
  revert columns; induction row as [|value row IH]; intros [|c columns];
    simpl; try done.
  destruct (AppendValueVisitor value c) as [c1|] eqn:Hc; simpl.
  - destruct (appendRow row columns) as [columns1|] eqn:Hrow; simpl; [done|].
    intros [= <-]. eauto.
  - intros [= <-]. eauto using AppendValueVisitor_error.
Qed.

(** A cell that its column cannot decode makes the whole row fail. *)
Lemma appendRow_bad_cell (row : list string) (columns : list Coordinate)
    (j : nat) (cell : string) (c : Coordinate) e :
  row !! j = Some cell -> columns !! j = Some c ->
  AppendValueVisitor cell c = Throw e ->
  appendRow row columns = Throw MalformedNumericLiteral.
Proof.
  revert columns j; induction row as [|value row IH];
    intros [|c0 columns] j; simpl; try done.
  destruct j as [|j]; simpl.
  - intros [= ->] [= ->] He. rewrite He. simpl.
    by rewrite (AppendValueVisitor_error _ _ _ He).
  - intros Hcell Hc He.
    rewrite (IH _ _ Hcell Hc He).
    destruct (AppendValueVisitor value c0) eqn:H0; simpl; [done|].
    by rewrite (AppendValueVisitor_error _ _ _ H0).
Qed.

(** The row loop splits at any row. *)
Lemma loadRows_app (n row : nat) (rows1 rows2 : list (list string))
    (columns : list Coordinate) :
  loadRows n row (rows1 ++ rows2) columns =
  let* columns' := loadRows n row rows1 columns in
  loadRows n (row + length rows1) rows2 columns'.
Proof.
  revert row columns; induction rows1 as [|r rows1 IH]; intros row columns;
    simpl.
  - by rewrite Nat.add_0_r.
  - replace (row + S (length rows1)) with (S row + length rows1) by lia.
    destruct (isEmptyLine r); [apply IH|].
    destruct (negb (length r =? n)); [done|].
    destruct (appendRow r columns); simpl; [apply IH | done].
Qed.

Lemma loadRows_blank (n row : nat) (rows : list (list string))
    (columns : list Coordinate) :
  loadRows n row ([""] :: rows) columns = loadRows n (S row) rows columns.
Proof. reflexivity. Qed.

(** The row index only appears in error messages. *)
Lemma loadRows_Ok_index (n row row' : nat) (rows : list (list string))
    (columns columns' : list Coordinate) :
  loadRows n row rows columns = Ok columns' ->
  loadRows n row' rows columns = Ok columns'.
Proof.
  revert row row' columns; induction rows as [|r rows IH];
    intros row row' columns; simpl; [done|].
  destruct (isEmptyLine r); [apply IH|].
  destruct (negb (length r =? n)); [done|].
  destruct (appendRow r columns); simpl; [apply IH | done].
Qed.

(** Column by column, the row loop appends the cells of the rows that are
    not blank, in row order. *)
Lemma loadRows_Ok (row : nat) (rows : list (list string))
    (columns columns' : list Coordinate) :
  loadRows (length columns) row rows columns = Ok columns' ->
  length columns' = length columns /\
  Forall (fun r => length r = length columns) (nonBlank rows) /\
  forall j c, columns !! j = Some c ->
    exists c', columns' !! j = Some c' /\
      appendCells (map (fun r => r !!! j) (nonBlank rows)) c = Ok c'.
Proof.
  revert row columns; induction rows as [|r rows IH]; intros row columns;
    simpl.
  - intros [= <-]. repeat split; [constructor | eauto].
  - unfold nonBlank. simpl. rewrite <- isEmptyLine_blankRow.
    destruct (isEmptyLine r); simpl; [apply IH|].
    destruct (Nat.eqb_spec (length r) (length columns)) as [Hlen|]; simpl;
      [|done].
    destruct (appendRow r columns) as [columns1|] eqn:Hrow; simpl; [|done].
    destruct (appendRow_Ok _ _ _ Hrow Hlen) as [Hlen1 Hcols1].
    rewrite <- Hlen1. intros Hrows.
    destruct (IH _ _ Hrows) as (Hlen2 & Hshape & Hcols2).
    rewrite Hlen1 in *. repeat split; [done | by constructor |].
    intros j c Hc. destruct (Hcols1 j c Hc) as (c1 & Hc1 & Happ).
    destruct (Hcols2 j c1 Hc1) as (c2 & Hc2 & Happs).
    exists c2. split; [done|]. by rewrite Happ.
Qed.

(** With rows of the right shape, the row loop can only fail on a cell. *)
Lemma loadRows_error (n row : nat) (rows : list (list string))
    (columns : list Coordinate) e :
  forallb (fun r => blankRow r || (length r =? n)) rows = true ->
  loadRows n row rows columns = Throw e -> e = MalformedNumericLiteral.
Proof.
  revert row columns; induction rows as [|r rows IH]; intros row columns;
    simpl; [done|].
  rewrite <- isEmptyLine_blankRow. intros [Hr Hrows]%andb_true_iff.
  destruct (isEmptyLine r); simpl in *; [by apply IH|].
  rewrite Hr. simpl.
  destruct (appendRow r columns) as [columns1|] eqn:Hrow; simpl.
  - by apply IH.
  - intros [= <-]. eauto using appendRow_error.
Qed.

Lemma appendCells_kind (cells : list string) (c c' : Coordinate) :
  appendCells cells c = Ok c' ->
  kindOf c' = kindOf c /\ columnSize c' = columnSize c + length cells.
Proof.
  revert c; induction cells as [|cell cells IH]; intros c; simpl.
  - intros [= <-]. split; [done | lia].
  - destruct (AppendValueVisitor cell c) as [c1|] eqn:Hc; simpl; [|done].
    intros Hcells. apply AppendValueVisitor_kind in Hc as [Hk Hs].
    destruct (IH _ Hcells) as [Hk' Hs']. split; [congruence | lia].
Qed.
End RowLoop.

(** ** Malformed numeric literals *)

Section Malformed.
Context {C : Collaborators}.

Lemma allocateColumns_numValues (p numValues numValues' column : nat)
    (types : list string) :
  allocateColumns p numValues column types
  = allocateColumns p numValues' column types.
Proof.
  revert column; induction types as [|type types IH]; intros column; simpl;
    [done|].
  by rewrite (IH (S column)), !allocateColumn_tagOf.
Qed.

Lemma loadData_cons (names types : list string) (rows : list (list string))
    (g : string) :
  rows <> [] ->
  loadData (names :: types :: rows) g =
  let* payloadColumnIndex := findPayloadColumn names g in
  if negb (length types =? length names) then Throw HeaderColumnCountMismatch else
  let* columns := allocateColumns payloadColumnIndex (length rows) 0 types in
  let* columns := loadRows (length names) numHeaderRows rows columns in
  let* result := storeColumns payloadColumnIndex 0
                   (map convertV1PathToV2Path names) columns
                   (mkInput C [] ∅ ∅ [[]]) in
  if length (payloadArray result) =? 0 then Throw NoDataLoaded else Ok result.
Proof. destruct rows; [done | intros _; apply loadData_rows]. Qed.

Lemma kindOf_columnOfType (type : string) :
  supportedType type = true -> tagOf type = Some (kindOf (columnOfType type)).
Proof.
  unfold supportedType, columnOfType.
  by destruct (tagOf type) as [[| |]|].
Qed.

(** Well-formed header rows pass the locator, the comparison of the header
    lengths and the allocation loop. *)
Lemma headerWellFormed_allocates (names types : list string) (g : string) :
  headerWellFormed names types g = true ->
  exists p name type,
    findPayloadColumn names g = Ok p /\
    names !! p = Some name /\ types !! p = Some type /\
    numericType type = true /\
    length types = length names /\
    forallb supportedType types = true /\
    forall numValues,
      allocateColumns p numValues 0 types = Ok (map columnOfType types).
Proof.
  unfold headerWellFormed.
  intros [[[Hone%Nat.eqb_eq Hlen%Nat.eqb_eq]%andb_true_iff
             Hsup]%andb_true_iff Hnum]%andb_true_iff.
  destruct (findPayloadColumn_unique names g Hone) as (p & name & Hp & Hname & Hin & _).
  destruct (lookup_lt_is_Some_2 types p) as [type Htype].
  { rewrite Hlen. by eapply lookup_lt_Some. }
  assert (Hnump : numericType type = true).
  { rewrite forallb_forall in Hnum.
    specialize (Hnum (name, type)). simpl in Hnum. rewrite Hin in Hnum.
    apply Hnum. apply list_elem_of_In, list_elem_of_lookup. exists p.
    apply lookup_zip_with_Some. eauto. }
  exists p, name, type. repeat split; try done.
  intros numValues. apply allocateColumns_supported; [done|].
  intros type' _. rewrite Nat.sub_0_r. congruence.
Qed.

Lemma AppendValueVisitor_unparseable (type cell : string) (c : Coordinate) :
  unparseable type cell = true ->
  tagOf type = Some (kindOf c) ->
  AppendValueVisitor cell c = Throw MalformedNumericLiteral.
Proof.
  unfold unparseable. intros [Hph Hbad]%andb_true_iff Htag.
  rewrite Htag in Hbad. apply negb_true_iff in Hph.
  destruct c as [values|values|values]; simpl in *; [| |done].
  - unfold intValue. rewrite Hph. by destruct (as_longlong cell).
  - unfold floatValue. rewrite Hph. by destruct (as_double cell).
Qed.

Lemma loadRows_kinds (row : nat) (rows : list (list string))
    (columns columns' : list Coordinate) (j : nat) (c : Coordinate) :
  loadRows (length columns) row rows columns = Ok columns' ->
  columns !! j = Some c ->
  exists c', columns' !! j = Some c' /\ kindOf c' = kindOf c /\
    columnSize c' = columnSize c + length (nonBlank rows).
Proof.
  intros Hrows Hc. destruct (loadRows_Ok _ _ _ _ Hrows) as (_ & _ & Hcols).
  destruct (Hcols j c Hc) as (c' & Hc' & Hcells).
  apply appendCells_kind in Hcells as [Hk Hs]. rewrite length_map in Hs.
  eauto.
Qed.

(** C6.  A cell of a column declared [int], [integer] or [float] that is
    neither the placeholder nor a numeric literal of the declared kind makes
    the load fail with MalformedNumericLiteral (so no table is produced and
    no value stands in for the cell): for every file with well-formed header
    rows in which the rows before the cell's row are blank or have one cell
    per declared column. *)
Theorem malformed_numeric_literal_fails
    (names types : list string) (before after : list (list string))
    (row : list string) (g : string) (column : nat) (type cell : string) :
  headerWellFormed names types g = true ->
  forallb (fun r => blankRow r || (length r =? length names)) before = true ->
  blankRow row = false ->
  length row = length names ->
  types !! column = Some type ->
  row !! column = Some cell ->
  unparseable type cell = true ->
  loadData (names :: types :: before ++ row :: after) g
  = Throw MalformedNumericLiteral.
Proof.
  intros Hheader Hbefore Hblank Hlen Htype Hcell Hbad.
  destruct (headerWellFormed_allocates _ _ _ Hheader)
    as (p & name & ptype & Hp & _ & _ & _ & Hlens & Hsup & Halloc).
  rewrite loadData_cons by (by destruct before).
  rewrite Hp. simpl. rewrite Hlens, Nat.eqb_refl. simpl.
  rewrite Halloc. simpl. rewrite loadRows_app.
  assert (Hn : length names = length (map columnOfType types))
    by (by rewrite length_map).
  destruct (loadRows (length names) numHeaderRows before (map columnOfType types))
    as [columns1|e] eqn:Hload; simpl.
  - rewrite <- isEmptyLine_blankRow in Hblank. rewrite Hblank, Hlen, Nat.eqb_refl.
    simpl. rewrite Hn in Hload.
    destruct (loadRows_kinds _ _ _ _ column (columnOfType type) Hload)
      as (c' & Hc' & Hk & _).
    { rewrite list_lookup_fmap, Htype. done. }
    rewrite (appendRow_bad_cell row columns1 column cell c' MalformedNumericLiteral);
      try done.
    apply (AppendValueVisitor_unparseable type); [done|].
    rewrite Hk. apply kindOf_columnOfType.
    rewrite forallb_forall in Hsup. apply Hsup.
    apply list_elem_of_In, list_elem_of_lookup. eauto.
  - by rewrite (loadRows_error _ _ _ _ _ Hbefore Hload).
Qed.

(** ** Blank lines *)

(** C8.  A row that is one empty cell, inserted anywhere among the data
    rows of a file that loads, leaves the loaded table unchanged. *)
Theorem blank_line_tolerance
    (names types : list string) (rows1 rows2 : list (list string))
    (g : string) (table : DataExtractorInput) :
  loadData (names :: types :: rows1 ++ rows2) g = Ok table ->
  loadData (names :: types :: rows1 ++ [""] :: rows2) g = Ok table.
Proof.
  intros Hload.
  assert (Hrows : (rows1 ++ rows2)%list <> []).
  { intros Hnil. rewrite Hnil in Hload. by rewrite loadData_short in Hload. }
  rewrite loadData_cons in Hload by done.
  rewrite loadData_cons by (by destruct rows1).
  destruct (findPayloadColumn names g) as [p|]; [|done].
  cbn [bind] in *.
  destruct (negb (length types =? length names)); [done|].
  rewrite (allocateColumns_numValues p _ (length (rows1 ++ rows2)%list)).
  destruct (allocateColumns p (length (rows1 ++ rows2)%list) 0 types)
    as [columns|]; [|done].
  cbn [bind] in *. rewrite loadRows_app in *.
  destruct (loadRows (length names) numHeaderRows rows1 columns)
    as [columns1|]; [|done].
  cbn [bind] in *. rewrite loadRows_blank.
  destruct (loadRows (length names) (numHeaderRows + length rows1) rows2 columns1)
    as [columns2|] eqn:Hrows2; [|done].
  by rewrite (loadRows_Ok_index _ _ (S (numHeaderRows + length rows1)) _ _ _ Hrows2).
Qed.
End Malformed.

(** ** The last loop: storing the columns in the result *)

Section StoreLoop.
Context {C : Collaborators}.

Lemma otherColumns_elem {A : Type} (p column : nat) (l : list A) (x : A) :
  x ∈ otherColumns p column l -> x ∈ l.
Proof.
  revert column; induction l as [|y l IH]; intros column; simpl; [done|].
  destruct (column =? p).
  - intros Hx. right. eauto.
  - intros [->|Hx]%elem_of_cons; [left | right; eauto].
Qed.

Lemma otherColumns_delete {A : Type} (p column : nat) (l : list A) :
  column <= p -> otherColumns p column l = delete (p - column) l.
Proof.
  revert column; induction l as [|y l IH]; intros column Hle; simpl.
  - by destruct (p - column).
  - destruct (Nat.eqb_spec column p) as [->|Hne].
    + rewrite Nat.sub_diag. simpl. clear IH Hle.
      assert (Hall : forall column, p < column -> otherColumns p column l = l).
      { induction l as [|z l IHl]; intros column Hlt; simpl; [done|].
        destruct (Nat.eqb_spec column p); [lia|]. rewrite IHl; [done | lia]. }
      apply Hall. lia.
    + replace (p - column) with (S (p - S column)) by lia. simpl.
      rewrite IH; [done | lia].
Qed.

(** What the last loop leaves in the result, from column index [column] on. *)
Lemma storeColumns_Ok (p : nat) (columnNames : list string)
    (columns : list Coordinate) :
  forall (column : nat) (result result' : DataExtractorInput) (d : list string),
  length columnNames = length columns ->
  storeColumns p column columnNames columns result = Ok result' ->
  dim2CoordMapping result = [d] ->
  dim2CoordMapping result' = [(d ++ otherColumns p column columnNames)%list] /\
  dom (coordsVals result')
  = dom (coordsVals result) ∪ list_to_set (otherColumns p column columnNames) /\
  dom (coord2DimMapping result')
  = dom (coord2DimMapping result) ∪ list_to_set (otherColumns p column columnNames) /\
  (forall name c, coordsVals result' !! name = Some c ->
     coordsVals result !! name = Some c \/ c ∈ otherColumns p column columns) /\
  (forall name k, coord2DimMapping result' !! name = Some k ->
     coord2DimMapping result !! name = Some k \/ k = firstDim) /\
  (forall c, column <= p -> columns !! (p - column) = Some c ->
     ConvertToEigenArrayVisitor c = Ok (payloadArray result')) /\
  (p < column -> payloadArray result' = payloadArray result).
Proof.
  revert columns; induction columnNames as [|name columnNames IH];
    intros [|c columns] column result result' d; simpl; try done.
  - intros _ [= <-] Hd. rewrite Hd, app_nil_r.
    repeat split; try done; eauto; set_solver.
  - intros [= Hlen]. unfold storeColumn.
    destruct (Nat.eqb_spec column p) as [->|Hne].
    + destruct (ConvertToEigenArrayVisitor c) as [output|] eqn:Hout;
        simpl; [|done].
      intros Hstore Hd.
      destruct (IH _ _ _ _ d Hlen Hstore Hd)
        as (Hdims & Hdom & Hdom2 & Hvals & Hdim & _ & Hpayload).
      simpl in *. repeat split; try done.
      * intros c0 _. rewrite Nat.sub_diag. simpl. intros [= <-].
        rewrite Hpayload; [done | lia].
      * lia.
    + simpl. intros Hstore Hd.
      destruct (IH _ _ _ _ (d ++ [name])%list Hlen Hstore)
        as (Hdims & Hdom & Hdom2 & Hvals & Hdim & Hconv & Hpayload).
      { simpl. by rewrite Hd. }
      simpl in *. repeat split.
      * by rewrite Hdims, <- app_assoc.
      * rewrite Hdom, dom_insert_L. set_solver.
      * rewrite Hdom2, dom_insert_L. set_solver.
      * intros name0 c0 Hc0. destruct (Hvals name0 c0 Hc0) as [Hin|Hin].
        -- destruct (decide (name = name0)) as [->|Hn].
           ++ rewrite lookup_insert_eq in Hin. injection Hin as <-.
              right. left.
           ++ rewrite lookup_insert_ne in Hin by done. by left.
        -- right. by right.
      * intros name0 k Hk. destruct (Hdim name0 k Hk) as [Hin|Hin]; [|by right].
        destruct (decide (name = name0)) as [->|Hn].
        -- rewrite lookup_insert_eq in Hin. injection Hin as <-. by right.
        -- rewrite lookup_insert_ne in Hin by done. by left.
      * intros c0 Hle. replace (p - column) with (S (p - S column)) by lia.
        simpl. apply Hconv. lia.
      * intros Hlt. rewrite Hpayload; [done | lia].
Qed.

(** The last loop succeeds when the payload column is numeric. *)
Lemma storeColumns_succeeds (p : nat) (columnNames : list string)
    (columns : list Coordinate) :
  forall (column : nat) (result : DataExtractorInput),
  (forall c, column <= p -> columns !! (p - column) = Some c -> kindOf c <> Text) ->
  exists result', storeColumns p column columnNames columns result = Ok result'.
Proof.
  revert columns; induction columnNames as [|name columnNames IH];
    intros [|c columns] column result Hnum; simpl; eauto.
  unfold storeColumn. destruct (Nat.eqb_spec column p) as [->|Hne].
  - assert (Hc : kindOf c <> Text).
    { apply Hnum; [lia|]. by rewrite Nat.sub_diag. }
    destruct c; simpl; try done; apply IH; intros c0 Hle; lia.
  - simpl. apply IH. intros c0 Hle Hc0. apply Hnum; [lia|].
    by replace (p - column) with (S (p - S column)) by lia.
Qed.

(** ** The payload array *)

(** The conversion of a column that has received cells: one row per cell,
    holding the cell's payload value, after the rows it had. *)
Lemma appendCells_payload (type : string) (cells : list string) :
  forall (c c' : Coordinate) (output : list (list float)),
  appendCells cells c = Ok c' ->
  tagOf type = Some (kindOf c) ->
  ConvertToEigenArrayVisitor c = Ok output ->
  exists values,
    ConvertToEigenArrayVisitor c' = Ok (output ++ map (fun v => [v]) values)%list /\
    Forall2 (fun cell v => payloadValue type cell = Ok v) cells values.
Proof.
  induction cells as [|cell cells IH]; intros c c' output; simpl.
  - intros [= <-] _ Hout. exists []. simpl. rewrite app_nil_r. by split.
  - destruct (AppendValueVisitor cell c) as [c1|] eqn:Hc1; simpl; [|done].
    intros Hcells Htag Hout.
    assert (Hstep : exists v, payloadValue type cell = Ok v /\
              ConvertToEigenArrayVisitor c1 = Ok (output ++ [[v]])%list).
    { unfold payloadValue. rewrite Htag.
      destruct c as [values|values|values]; simpl in *; [| |done].
      - destruct (intValue cell) as [z|]; simpl in *; [|done].
        injection Hc1 as <-. injection Hout as <-. simpl.
        exists (int_to_float z). by rewrite map_app.
      - destruct (floatValue cell) as [x|]; simpl in *; [|done].
        injection Hc1 as <-. injection Hout as <-. simpl.
        exists x. by rewrite map_app. }
    destruct Hstep as (v & Hv & Hout1).
    destruct (IH c1 c' (output ++ [[v]])%list Hcells)
      as (values & Hconv & Hvalues); [|done|].
    { by rewrite (proj1 (AppendValueVisitor_kind _ _ _ Hc1)). }
    exists (v :: values). rewrite Hconv, <- app_assoc. by split; [|constructor].
Qed.
End StoreLoop.

(** ** Loading a well-formed file *)

Section WellFormed.
Context {C : Collaborators}.

Lemma AppendValueVisitor_decodes (type cell : string) (c : Coordinate) :
  tagOf type = Some (kindOf c) ->
  cellDecodes type cell = true ->
  exists c', AppendValueVisitor cell c = Ok c'.
Proof.
  unfold cellDecodes. intros ->.
  destruct c as [values|values|values]; simpl; eauto.
  - unfold intValue. destruct (String.eqb cell missingValuePlaceholder);
      simpl; eauto.
    destruct (as_longlong cell); simpl; [eauto | done].
  - unfold floatValue. destruct (String.eqb cell missingValuePlaceholder);
      simpl; eauto.
    destruct (as_double cell); simpl; [eauto | done].
Qed.

Lemma appendRow_succeeds (types row : list string) (columns : list Coordinate) :
  Forall2 (fun type c => tagOf type = Some (kindOf c)) types columns ->
  forallb (fun tc => cellDecodes tc.1 tc.2) (zip types row) = true ->
  exists columns',
    appendRow row columns = Ok columns' /\
    Forall2 (fun type c => tagOf type = Some (kindOf c)) types columns'.
Proof.
  intros Hkinds; revert row; induction Hkinds as [|type c types columns Hk Hks IH];
    intros [|cell row]; simpl; eauto.
  intros [Hcell Hrow]%andb_true_iff.
  destruct (AppendValueVisitor_decodes type cell c Hk Hcell) as [c' Hc'].
  destruct (IH row Hrow) as (columns' & -> & Hks').
  rewrite Hc'. simpl. eexists; split; [done|]. constructor; [|done].
  by rewrite (proj1 (AppendValueVisitor_kind _ _ _ Hc')).
Qed.

Lemma loadRows_succeeds (types : list string) (row : nat)
    (rows : list (list string)) (columns : list Coordinate) :
  Forall2 (fun type c => tagOf type = Some (kindOf c)) types columns ->
  forallb (rowWellFormed types) rows = true ->
  exists columns', loadRows (length types) row rows columns = Ok columns'.
Proof.
  revert row columns; induction rows as [|r rows IH]; intros row columns Hkinds;
    simpl; eauto.
  intros [Hr Hrows]%andb_true_iff. unfold rowWellFormed in Hr.
  rewrite <- isEmptyLine_blankRow in Hr.
  destruct (isEmptyLine r); simpl in *; eauto.
  apply andb_true_iff in Hr as [Hlen Hcells]. rewrite Hlen. simpl.
  destruct (appendRow_succeeds types r columns Hkinds Hcells)
    as (columns' & -> & Hkinds').
  simpl. eauto.
Qed.

Lemma columnOfType_kinds (types : list string) :
  forallb supportedType types = true ->
  Forall2 (fun type c => tagOf type = Some (kindOf c))
          types (map columnOfType types).
Proof.
  induction types as [|type types IH]; simpl; [constructor|].
  intros [Hsup Hsups]%andb_true_iff.
  constructor; [by apply kindOf_columnOfType | eauto].
Qed.

Lemma columnOfType_empty (type : string) : columnSize (columnOfType type) = 0.
Proof. unfold columnOfType. by destruct (tagOf type) as [[| |]|]. Qed.

(** The steps of a load that returns a table. *)
Lemma loadData_Ok (names types : list string) (rows : list (list string))
    (g : string) (table : DataExtractorInput) :
  loadData (names :: types :: rows) g = Ok table ->
  exists p columns,
    findPayloadColumn names g = Ok p /\
    length types = length names /\
    allocateColumns p (length rows) 0 types = Ok (map columnOfType types) /\
    loadRows (length names) numHeaderRows rows (map columnOfType types)
    = Ok columns /\
    storeColumns p 0 (map convertV1PathToV2Path names) columns
      (mkInput C [] ∅ ∅ [[]]) = Ok table /\
    payloadArray table <> [].
Proof.
  intros Hload.
  assert (Hrows : rows <> []).
  { intros ->. by rewrite loadData_short in Hload. }
  rewrite loadData_cons in Hload by done.
  destruct (findPayloadColumn names g) as [p|]; [|done].
  cbn [bind] in Hload.
  destruct (Nat.eqb_spec (length types) (length names)) as [Hlen|]; [|done].
  cbn [negb] in Hload.
  destruct (allocateColumns p (length rows) 0 types) as [columns0|] eqn:Halloc;
    [|done].
  destruct (allocateColumns_Ok _ _ _ _ _ Halloc) as (-> & _ & _).
  cbn [bind] in Hload.
  destruct (loadRows _ _ rows _) as [columns|] eqn:Hload1; [|done].
  cbn [bind] in Hload.
  destruct (storeColumns _ _ _ columns _) as [result|] eqn:Hstore; [|done].
  cbn [bind] in Hload.
  destruct (payloadArray result) eqn:Hpayload; [done|].
  injection Hload as <-. exists p, columns. rewrite Hpayload.
  repeat split; done.
Qed.

(** C1.  A well-formed file with N data rows that are not blank loads; the
    payload array has N rows; its i-th row holds the decoded value of the
    payload cell of the i-th data row that is not blank; and every typed
    column, those of the coordinates in the table included, has length N. *)
Theorem load_preserves_rows (names types : list string)
    (rows : list (list string)) (g : string) :
  wellFormed (names :: types :: rows) g = true ->
  exists table p columns,
    loadData (names :: types :: rows) g = Ok table /\
    findPayloadColumn names g = Ok p /\
    loadRows (length names) numHeaderRows rows (map columnOfType types)
    = Ok columns /\
    Forall (fun c => columnSize c = length (nonBlank rows)) columns /\
    (forall name c, coordsVals table !! name = Some c ->
       columnSize c = length (nonBlank rows)) /\
    length (payloadArray table) = length (nonBlank rows) /\
    forall i row, nonBlank rows !! i = Some row ->
      exists cell v,
        row !! p = Some cell /\
        payloadValue (types !!! p) cell = Ok v /\
        payloadArray table !! i = Some [v].
Proof.
  unfold wellFormed.
  intros [[Hheader Hrows]%andb_true_iff Hsome%negb_true_iff]%andb_true_iff.
  apply Nat.eqb_neq in Hsome.
  destruct (headerWellFormed_allocates _ _ _ Hheader)
    as (p & pname & ptype & Hp & Hpname & Hptype & Hnum & Hlen & Hsup & Halloc).
  pose proof (columnOfType_kinds types Hsup) as Hkinds.
  destruct (loadRows_succeeds types numHeaderRows rows _ Hkinds Hrows)
    as [columns Hload].
  assert (Hn : length (map columnOfType types) = length names)
    by (by rewrite length_map).
  rewrite Hlen in Hload. pose proof Hload as Hload'.
  rewrite <- Hn in Hload'.
  destruct (loadRows_Ok _ _ _ _ Hload') as (Hlen' & Hshape & Hcols).
  rewrite Hn in Hlen', Hshape.
  (* every typed column has one value per row that is not blank *)
  assert (Hsizes : Forall (fun c => columnSize c = length (nonBlank rows)) columns).
  { apply Forall_lookup. intros j c' Hc'.
    destruct (lookup_lt_is_Some_2 (map columnOfType types) j) as [c Hc].
    { rewrite Hn, <- Hlen'. by eapply lookup_lt_Some. }
    destruct (loadRows_kinds _ _ _ _ j c Hload' Hc) as (c'' & Hc'' & _ & Hsize).
    rewrite Hc' in Hc''. injection Hc'' as <-. rewrite Hsize.
    apply list_lookup_fmap_Some in Hc as (type & -> & _).
    by rewrite columnOfType_empty. }
  (* the payload column *)
  destruct (Hcols p (columnOfType ptype)) as (pc & Hpc & Hcells).
  { by rewrite list_lookup_fmap, Hptype. }
  assert (Htag : tagOf ptype = Some (kindOf (columnOfType ptype))).
  { apply kindOf_columnOfType. unfold numericType in Hnum.
    unfold supportedType. by destruct (tagOf ptype). }
  assert (Hempty : ConvertToEigenArrayVisitor (columnOfType ptype) = Ok []).
  { unfold columnOfType, numericType in *.
    by destruct (tagOf ptype) as [[| |]|]. }
  destruct (appendCells_payload ptype _ _ _ _ Hcells Htag Hempty)
    as (values & Hconv & Hvalues).
  simpl in Hconv.
  (* the last loop *)
  destruct (storeColumns_succeeds p (map convertV1PathToV2Path names) columns 0
              (mkInput C [] ∅ ∅ [[]])) as [table Hstore].
  { intros c _. rewrite Nat.sub_0_r, Hpc. intros [= <-].
    rewrite (proj1 (appendCells_kind _ _ _ Hcells)).
    unfold columnOfType, numericType in *.
    by destruct (tagOf ptype) as [[| |]|]. }
  destruct (storeColumns_Ok p _ _ 0 _ _ [] (eq_trans (length_map _ _)
              (eq_sym Hlen')) Hstore eq_refl)
    as (_ & _ & _ & Hvals & _ & Hpayload & _).
  specialize (Hpayload pc (Nat.le_0_l _)). rewrite Nat.sub_0_r in Hpayload.
  specialize (Hpayload Hpc). rewrite Hconv in Hpayload.
  injection Hpayload as Hpayload.
  assert (Hrowsn : length (payloadArray table) = length (nonBlank rows)).
  { rewrite <- Hpayload, length_map, <- (Forall2_length _ _ _ Hvalues).
    by rewrite length_map. }
  exists table, p, columns. repeat split; try done.
  - assert (Hne : rows <> []) by (by intros ->).
    rewrite loadData_cons, Hp by done. cbn [bind].
    rewrite Hlen, Nat.eqb_refl. cbn [negb]. rewrite Halloc. cbn [bind].
    rewrite Hload. cbn [bind]. rewrite Hstore. cbn [bind].
    destruct (Nat.eqb_spec (length (payloadArray table)) 0); [lia | done].
  - intros name c Hc. destruct (Hvals name c Hc) as [Hin|Hin]; [done|].
    apply otherColumns_elem in Hin.
    rewrite Forall_forall in Hsizes. by apply Hsizes.
  - intros i row Hrow.
    assert (Hrowlen : length row = length names).
    { rewrite Forall_lookup in Hshape. by eapply Hshape. }
    destruct (lookup_lt_is_Some_2 row p) as [cell Hcell].
    { rewrite Hrowlen. by eapply lookup_lt_Some. }
    destruct (Forall2_lookup_l _ _ _ i cell Hvalues) as (v & Hv & Hpv).
    { rewrite list_lookup_fmap, Hrow. simpl.
      by rewrite (list_lookup_total_correct _ _ _ Hcell). }
    exists cell, v. repeat split; [done| |].
    + by rewrite (list_lookup_total_correct _ _ _ Hptype).
    + by rewrite <- Hpayload, list_lookup_fmap, Hv.
Qed.
End WellFormed.

(** ** The loaded table *)

Section LoadedTable.
Context {C : Collaborators}.

(** The index that the locator returns is that of the only matching name. *)
Lemma findPayloadColumn_Ok (names : list string) (g : string) (p : nat) :
  findPayloadColumn names g = Ok p ->
  exists name,
    names !! p = Some name /\ isInPayloadGroup g name = true /\
    forall j other, names !! j = Some other ->
      isInPayloadGroup g other = true -> j = p.
Proof.
  intros Hp.
  destruct (findPayloadColumn_unique names g) as (i & name & Hi & Hname & Hin & Hj).
  - destruct (length (List.filter (isInPayloadGroup g) names)) as [|[|n]] eqn:Hn;
      [| done |].
    + by rewrite findPayloadColumn_none in Hp.
    + rewrite findPayloadColumn_many in Hp; [done | lia].
  - rewrite Hp in Hi. injection Hi as ->. eauto.
Qed.

Lemma appendCells_int (cells : list string) :
  forall (values : list Z) (c' : Coordinate),
  appendCells cells (IntColumn values) = Ok c' ->
  exists values',
    c' = IntColumn (values ++ values') /\
    Forall2 (fun cell z => intValue cell = Ok z) cells values'.
Proof.
  induction cells as [|cell cells IH]; intros values c'; simpl.
  - intros [= <-]. exists []. by rewrite app_nil_r.
  - destruct (intValue cell) as [z|] eqn:Hz; simpl; [|done].
    intros Hcells. destruct (IH _ _ Hcells) as (values' & -> & Hvalues).
    exists (z :: values'). rewrite <- app_assoc. by split; [|constructor].
Qed.

Lemma otherColumns_map {A B : Type} (f : A -> B) (p column : nat) (l : list A) :
  otherColumns p column (map f l) = map f (otherColumns p column l).
Proof.
  revert column; induction l as [|x l IH]; intros column; simpl; [done|].
  destruct (column =? p); simpl; by rewrite IH.
Qed.

Lemma NoDup_delete_middle {A : Type} (l : list A) (p : nat) (x : A) :
  l !! p = Some x -> NoDup l -> NoDup (delete p l) /\ x ∉ delete p l.
Proof.
  intros Hx Hnodup. rewrite <- (take_drop_middle l p x Hx) in Hnodup.
  rewrite delete_take_drop.
  apply NoDup_app in Hnodup as (Hnd1 & Hdisj & Hnd2).
  apply NoDup_cons in Hnd2 as [Hnotin Hnd2]. split.
  - apply NoDup_app. split_and!; [done | | done].
    intros y Hy1 Hy2. apply (Hdisj y Hy1). by right.
  - intros [Hy|Hy]%elem_of_app; [|done]. apply (Hdisj x Hy). by left.
Qed.

(** C10.  The payload array holds [float] values whatever the declared tag
    of the payload column: when the tag is [int] or [integer], the typed
    payload column is an integer column holding the decoded integers of the
    payload cells, and the payload array holds each of them converted to
    [float], in the same order. *)
Theorem integer_payload_converted_to_float (names types : list string)
    (rows : list (list string)) (g : string) (table : DataExtractorInput)
    (p : nat) (type : string) :
  loadData (names :: types :: rows) g = Ok table ->
  findPayloadColumn names g = Ok p ->
  types !! p = Some type ->
  type = "int" \/ type = "integer" ->
  exists (columns : list Coordinate) (values : list Z),
    loadRows (length names) numHeaderRows rows (map columnOfType types)
    = Ok columns /\
    columns !! p = Some (IntColumn values) /\
    Forall2 (fun row z => intValue (row !!! p) = Ok z) (nonBlank rows) values /\
    payloadArray table = map (fun z => [int_to_float z]) values.
Proof.
  intros Hload Hp Htype Hint.
  destruct (loadData_Ok _ _ _ _ _ Hload)
    as (p' & columns & Hp' & Hlen & _ & Hrows & Hstore & _).
  rewrite Hp in Hp'. injection Hp' as <-.
  assert (Hn : length (map columnOfType types) = length names)
    by (by rewrite length_map).
  rewrite <- Hn in Hrows.
  destruct (loadRows_Ok _ _ _ _ Hrows) as (Hlen' & _ & Hcols).
  destruct (Hcols p (IntColumn [])) as (c' & Hc' & Hcells).
  { rewrite list_lookup_fmap, Htype. by destruct Hint as [-> | ->]. }
  apply appendCells_int in Hcells as (values & -> & Hvalues).
  simpl in Hc'.
  destruct (storeColumns_Ok p _ _ 0 _ _ [] (eq_trans (length_map _ _)
              (eq_trans (eq_sym Hn) (eq_sym Hlen'))) Hstore eq_refl)
    as (_ & _ & _ & _ & _ & Hpayload & _).
  specialize (Hpayload (IntColumn values) (Nat.le_0_l _)).
  rewrite Nat.sub_0_r in Hpayload.
  specialize (Hpayload Hc'). simpl in Hpayload. injection Hpayload as <-.
  exists columns, values. rewrite Hn in Hrows. repeat split; try done.
  by apply Forall2_fmap_l in Hvalues.
Qed.

(** C9, as the code has it.  In a loaded table, [dimensionToCoordinates[0]]
    lists the normalized names of the columns other than the payload
    column, in file order, and these names are the keys of
    [coordinateValues] and of [coordinateToDimension]; the raw name of a
    coordinate column never matches the payload convention.  The loader
    does not compare names: the coordinate names are unique, and distinct
    from the normalized name of the payload column (which then is no key of
    [coordinateValues]), when the normalized names of the columns of the
    file are pairwise distinct. *)
Theorem coordinate_names_follow_header (names types : list string)
    (rows : list (list string)) (g : string) (table : DataExtractorInput) :
  loadData (names :: types :: rows) g = Ok table ->
  exists (p : nat) (payloadName : string),
    findPayloadColumn names g = Ok p /\
    names !! p = Some payloadName /\
    dim2CoordMapping table = [map convertV1PathToV2Path (delete p names)] /\
    dom (coordsVals table)
    = list_to_set (map convertV1PathToV2Path (delete p names)) /\
    dom (coord2DimMapping table)
    = list_to_set (map convertV1PathToV2Path (delete p names)) /\
    (forall name k, coord2DimMapping table !! name = Some k -> k = 0) /\
    (forall name, name ∈ delete p names -> isInPayloadGroup g name = false) /\
    (NoDup (map convertV1PathToV2Path names) ->
     NoDup (map convertV1PathToV2Path (delete p names)) /\
     (convertV1PathToV2Path payloadName
        ∉ map convertV1PathToV2Path (delete p names)) /\
     coordsVals table !! convertV1PathToV2Path payloadName = None).
Proof.
  intros Hload.
  destruct (loadData_Ok _ _ _ _ _ Hload)
    as (p & columns & Hp & Hlen & _ & Hrows & Hstore & _).
  destruct (findPayloadColumn_Ok names g p Hp) as (payloadName & Hname & Hin & Huniq).
  assert (Hn : length (map columnOfType types) = length names)
    by (by rewrite length_map).
  rewrite <- Hn in Hrows.
  destruct (loadRows_Ok _ _ _ _ Hrows) as (Hlen' & _ & _).
  destruct (storeColumns_Ok p _ _ 0 _ _ [] (eq_trans (length_map _ _)
              (eq_trans (eq_sym Hn) (eq_sym Hlen'))) Hstore eq_refl)
    as (Hdims & Hdom & Hdom2 & _ & Hdim & _ & _).
  rewrite otherColumns_map, otherColumns_delete, Nat.sub_0_r in Hdims, Hdom, Hdom2
    by lia.
  simpl in Hdims, Hdom, Hdom2.
  rewrite dom_empty_L, (left_id_L ∅ (∪)) in Hdom.
  rewrite dom_empty_L, (left_id_L ∅ (∪)) in Hdom2.
  exists p, payloadName. split_and!; try done.
  - intros name k Hk. destruct (Hdim name k Hk) as [Hk'|Hk']; [|done].
    simpl in Hk'. by rewrite lookup_empty in Hk'.
  - intros name (j & Hj)%list_elem_of_lookup.
    destruct (isInPayloadGroup g name) eqn:Hmatch; [|done].
    destruct (decide (j < p)) as [Hlt|Hge].
    + rewrite list_lookup_delete_lt in Hj by done.
      specialize (Huniq j name Hj Hmatch). lia.
    + rewrite list_lookup_delete_ge in Hj by lia.
      specialize (Huniq (S j) name Hj Hmatch). lia.
  - intros Hnodup.
    destruct (NoDup_delete_middle (map convertV1PathToV2Path names) p
                (convertV1PathToV2Path payloadName)) as [Hnd Hnotin]; [|done|].
    { by rewrite list_lookup_fmap, Hname. }
    rewrite <- list_fmap_delete in Hnd, Hnotin.
    split_and!; try done.
    apply not_elem_of_dom. rewrite Hdom. by rewrite elem_of_list_to_set.
Qed.
End LoadedTable.

(** ** The concrete scenario *)

(** C3.  The file of the concrete scenario loads under the payload group
    [ErrorInflation]; the payload array is the column of the two values that
    eckit reads from "1.5" and "2.25", narrowed to [float]; the coordinate
    [station] holds "A" and "B", belongs to dimension 0, and is the only
    coordinate of dimension 0.  The three facts assumed of the collaborators
    are that eckit reads the two literals and that ioda leaves a name
    without '@' unchanged. *)
Theorem concrete_scenario {C : Collaborators} (d1 d2 : double) :
  as_double "1.5" = Some d1 ->
  as_double "2.25" = Some d2 ->
  convertV1PathToV2Path "station" = "station" ->
  exists table,
    loadData scenario "ErrorInflation" = Ok table /\
    payloadArray table = [[double_to_float d1]; [double_to_float d2]] /\
    coordsVals table !! "station" = Some (StringColumn ["A"; "B"]) /\
    coord2DimMapping table !! "station" = Some 0 /\
    dim2CoordMapping table !! 0 = Some ["station"].
Proof.
  intros H1 H2 Hstation. eexists. split.
  - unfold scenario. rewrite loadData_rows.
    change (findPayloadColumn _ _) with (@Ok nat 1).
    cbn -[as_double convertV1PathToV2Path]. unfold floatValue. cbn.
    rewrite H1. cbn. rewrite H2. cbn. rewrite Hstation. reflexivity.
  - cbn. by split_and!.
Qed.

(** ** The theorems at concrete files, with the reference collaborators *)

Section Instances.
Local Existing Instance Reference.collaborators.

Lemma load_preserves_rows_scenario :
  wellFormed scenario "ErrorInflation" = true /\
  exists table p columns,
    loadData scenario "ErrorInflation" = Ok table /\
    findPayloadColumn ["station"; "pressure@ErrorInflation"] "ErrorInflation"
    = Ok p /\
    loadRows 2 numHeaderRows [["A"; "1.5"]; ["B"; "2.25"]]
      (map columnOfType ["string"; "float"]) = Ok columns /\
    Forall (fun c => columnSize c = 2) columns /\
    (forall name c, coordsVals table !! name = Some c -> columnSize c = 2) /\
    length (payloadArray table) = 2 /\
    forall i row, [["A"; "1.5"]; ["B"; "2.25"]] !! i = Some row ->
      exists cell v,
        row !! p = Some cell /\
        payloadValue (["string"; "float"] !!! p) cell = Ok v /\
        payloadArray table !! i = Some [v].
Proof.
  split; [reflexivity|].
  apply (load_preserves_rows ["station"; "pressure@ErrorInflation"]
           ["string"; "float"] [["A"; "1.5"]; ["B"; "2.25"]] "ErrorInflation").
  reflexivity.
Defined.

Lemma findPayloadColumn_spec_scenario :
  length (List.filter (isInPayloadGroup "ErrorInflation")
            ["station"; "pressure@ErrorInflation"]) = 1 /\
  exists i name,
    findPayloadColumn ["station"; "pressure@ErrorInflation"] "ErrorInflation"
    = Ok i /\
    ["station"; "pressure@ErrorInflation"] !! i = Some name /\
    isInPayloadGroup "ErrorInflation" name = true /\
    forall j other,
      ["station"; "pressure@ErrorInflation"] !! j = Some other ->
      isInPayloadGroup "ErrorInflation" other = true -> j = i.
Proof.
  split; [reflexivity|].
  apply (proj2 (proj2 (proj2
           (findPayloadColumn_spec ["station"; "pressure@ErrorInflation"]
              "ErrorInflation")))).
  reflexivity.
Defined.

Lemma concrete_scenario_reference :
  as_double "1.5" = Some (S754_finite false 6755399441055744 (-52)) /\
  as_double "2.25" = Some (S754_finite false 5066549580791808 (-51)) /\
  convertV1PathToV2Path "station" = "station" /\
  Reference.fraction_of (S754_finite false 12582912 (-23)) = Some (3, 2)%Z /\
  Reference.fraction_of (S754_finite false 9437184 (-22)) = Some (9, 4)%Z /\
  exists table,
    loadData scenario "ErrorInflation" = Ok table /\
    payloadArray table = [[S754_finite false 12582912 (-23)];
                          [S754_finite false 9437184 (-22)]] /\
    coordsVals table !! "station" = Some (StringColumn ["A"; "B"]) /\
    coord2DimMapping table !! "station" = Some 0 /\
    dim2CoordMapping table !! 0 = Some ["station"].
Proof.
  split_and!; try reflexivity.
  apply (concrete_scenario (C := Reference.collaborators)
           (S754_finite false 6755399441055744 (-52))
           (S754_finite false 5066549580791808 (-51)));
    reflexivity.
Defined.

Lemma text_payload_fails_at_allocation_scenario :
  loadData [["station"; "pressure@ErrorInflation"];
            ["string"; "string"];
            ["A"; "1.5"];
            ["B"; "not a number"; "spare"]] "ErrorInflation"
  = Throw PayloadMustBeNumeric.
Proof.
  apply (text_payload_fails_at_allocation
           ["station"; "pressure@ErrorInflation"] ["string"; "string"]
           [["A"; "1.5"]; ["B"; "not a number"; "spare"]]
           "ErrorInflation" 1 "string");
    [discriminate | reflexivity | reflexivity | reflexivity
    | left; reflexivity | reflexivity].
Defined.

Lemma malformed_numeric_literal_fails_scenario :
  unparseable "float" "abc" = true /\
  loadData [["station"; "pressure@ErrorInflation"];
            ["string"; "float"];
            ["A"; "1.5"];
            ["B"; "abc"]] "ErrorInflation"
  = Throw MalformedNumericLiteral.
Proof.
  split; [reflexivity|].
  apply (malformed_numeric_literal_fails
           ["station"; "pressure@ErrorInflation"] ["string"; "float"]
           [["A"; "1.5"]] [] ["B"; "abc"] "ErrorInflation" 1 "float" "abc");
    reflexivity.
Defined.

Lemma locator_runs_before_header_check_mismatched :
  loadData mismatched_headers "G" = Throw NoPayloadColumnFound.
Proof.
  apply (proj1 (locator_runs_before_header_check ["a"] ["int"; "int"] [["1"]] "G"
                  ltac:(discriminate) ltac:(simpl; lia))).
  reflexivity.
Defined.

(** C7 fails as stated: the header rows of this file differ in length and
    no column name is in the payload group, and the load fails with
    NoPayloadColumnFound, not with HeaderColumnCountMismatch. *)
Lemma header_check_first_counterexample :
  length (mismatched_headers !!! 1) <> length (mismatched_headers !!! 0) /\
  List.filter (isInPayloadGroup "G") (mismatched_headers !!! 0) = [] /\
  loadData mismatched_headers "G" = Throw NoPayloadColumnFound /\
  loadData mismatched_headers "G" <> Throw HeaderColumnCountMismatch.
Proof.
  split_and!; [simpl; lia | reflexivity | reflexivity | discriminate].
Qed.

Lemma blank_line_tolerance_scenario :
  exists table,
    loadData scenario "ErrorInflation" = Ok table /\
    loadData scenario_blank "ErrorInflation" = Ok table.
Proof.
  eexists. split; [reflexivity|].
  apply (blank_line_tolerance ["station"; "pressure@ErrorInflation"]
           ["string"; "float"] [["A"; "1.5"]] [["B"; "2.25"]] "ErrorInflation").
  reflexivity.
Defined.

Lemma integer_payload_converted_to_float_scenario :
  exists (table : DataExtractorInput) (columns : list Coordinate) (values : list Z),
    loadData scenario_int "ErrorInflation" = Ok table /\
    loadRows 2 numHeaderRows [["A"; "3"]; ["B"; "_"]]
      (map columnOfType ["string"; "int"]) = Ok columns /\
    columns !! 1 = Some (IntColumn values) /\
    Forall2 (fun row z => intValue (row !!! 1) = Ok z)
      (nonBlank [["A"; "3"]; ["B"; "_"]]) values /\
    payloadArray table = map (fun z => [int_to_float z]) values.
Proof.
  eexists.
  eassert (Hload : loadData scenario_int "ErrorInflation" = Ok _) by reflexivity.
  destruct (integer_payload_converted_to_float
              ["station"; "count@ErrorInflation"] ["string"; "int"]
              [["A"; "3"]; ["B"; "_"]] "ErrorInflation" _ 1 "int"
              Hload eq_refl eq_refl (or_introl eq_refl))
    as (columns & values & H).
  exists columns, values. split; [exact Hload | exact H].
Defined.

Lemma coordinate_names_follow_header_scenario :
  exists (table : DataExtractorInput),
    loadData scenario "ErrorInflation" = Ok table /\
    NoDup (map convertV1PathToV2Path ["station"; "pressure@ErrorInflation"]) /\
    dim2CoordMapping table = [["station"]] /\
    coordsVals table !! "ErrorInflation/pressure" = None.
Proof.
  eexists.
  eassert (Hload : loadData scenario "ErrorInflation" = Ok _) by reflexivity.
  destruct (coordinate_names_follow_header
              ["station"; "pressure@ErrorInflation"] ["string"; "float"]
              [["A"; "1.5"]; ["B"; "2.25"]] "ErrorInflation" _ Hload)
    as (p & payloadName & Hp & Hname & Hdims & _ & _ & _ & _ & Hnodup).
  injection Hp as <-. injection Hname as <-.
  assert (Hnd : NoDup (map convertV1PathToV2Path
                         ["station"; "pressure@ErrorInflation"])).
  { change (NoDup ["station"; "ErrorInflation/pressure"]).
    apply (bool_decide_unpack _). vm_compute. exact I. }
  destruct (Hnodup Hnd) as (_ & _ & Hnone).
  split_and!; [exact Hload | exact Hnd | exact Hdims | exact Hnone].
Defined.

(** C9 fails as stated: this file loads, and [dimensionToCoordinates[0]]
    names the coordinate [a] twice. *)
Lemma unique_coordinate_names_counterexample :
  exists table,
    loadData repeated_name "G" = Ok table /\
    dim2CoordMapping table !!! 0 = ["a"; "a"] /\
    ~ NoDup (dim2CoordMapping table !!! 0).
Proof.
  eexists. split; [reflexivity|]. split; [reflexivity|].
  cbn. rewrite NoDup_cons. intros [Hnotin _]. apply Hnotin. left.
Qed.
End Instances.

(** * Further properties of the loader *)

Section Converse.
Context {C : Collaborators}.

Lemma findPayloadColumn_Ok_count (names : list string) (g : string) (p : nat) :
  findPayloadColumn names g = Ok p ->
  length (List.filter (isInPayloadGroup g) names) = 1.
Proof.
  intros Hp.
  destruct (length (List.filter (isInPayloadGroup g) names)) as [|[|n]] eqn:Hn;
    [| done |].
  - by rewrite findPayloadColumn_none in Hp.
  - rewrite findPayloadColumn_many in Hp; [done | lia].
Qed.

Lemma AppendValueVisitor_Ok_decodes (type cell : string) (c c' : Coordinate) :
  tagOf type = Some (kindOf c) ->
  AppendValueVisitor cell c = Ok c' ->
  cellDecodes type cell = true.
Proof.
  unfold cellDecodes. intros ->.
  destruct c as [values|values|values]; simpl; [| |done].
  - unfold intValue. destruct (String.eqb cell missingValuePlaceholder); [done|].
    by destruct (as_longlong cell).
  - unfold floatValue. destruct (String.eqb cell missingValuePlaceholder); [done|].
    by destruct (as_double cell).
Qed.

Lemma appendRow_Ok_decodes (types row : list string) (columns columns' : list Coordinate) :
  Forall2 (fun type c => tagOf type = Some (kindOf c)) types columns ->
  length row = length types ->
  appendRow row columns = Ok columns' ->
  forallb (fun tc => cellDecodes tc.1 tc.2) (zip types row) = true /\
  Forall2 (fun type c => tagOf type = Some (kindOf c)) types columns'.
Proof.
  intros Hkinds; revert row columns';
    induction Hkinds as [|type c types columns Hk Hks IH];
    intros [|cell row] columns'; simpl; try done.
  - intros _ [= <-]. split; [done | constructor].
  - intros [= Hlen].
    destruct (AppendValueVisitor cell c) as [c1|] eqn:Hc; simpl; [|done].
    destruct (appendRow row columns) as [columns1|] eqn:Hrow; simpl; [|done].
    intros [= <-]. destruct (IH _ _ Hlen Hrow) as [Hcells Hks'].
    rewrite (AppendValueVisitor_Ok_decodes _ _ _ _ Hk Hc), Hcells.
    split; [done|]. constructor; [|done].
    by rewrite (proj1 (AppendValueVisitor_kind _ _ _ Hc)).
Qed.

Lemma loadRows_Ok_wellFormed (types : list string) (row : nat)
    (rows : list (list string)) (columns columns' : list Coordinate) :
  Forall2 (fun type c => tagOf type = Some (kindOf c)) types columns ->
  loadRows (length types) row rows columns = Ok columns' ->
  forallb (rowWellFormed types) rows = true.
Proof.
  revert row columns; induction rows as [|r rows IH]; intros row columns Hkinds;
    simpl; [done|].
  unfold rowWellFormed at 1. rewrite <- isEmptyLine_blankRow.
  destruct (isEmptyLine r); simpl; [by apply IH|].
  destruct (Nat.eqb_spec (length r) (length types)) as [Hlen|]; simpl; [|done].
  destruct (appendRow r columns) as [columns1|] eqn:Hrow; simpl; [|done].
  destruct (appendRow_Ok_decodes _ _ _ _ Hkinds Hlen Hrow) as [-> Hkinds'].
  by apply IH.
Qed.
End Converse.

Section Stages.
Context {C : Collaborators}.

Lemma ConvertToEigenArrayVisitor_rows (c : Coordinate) (output : list (list float)) :
  ConvertToEigenArrayVisitor c = Ok output ->
  length output = columnSize c /\ Forall (fun r => length r = 1) output.
Proof.
  destruct c as [values|values|values]; simpl; [| |done]; intros [= <-];
    rewrite length_map; (split; [done|]); apply Forall_fmap, Forall_true; done.
Qed.

(** The stages of a load that returns a table, column by column. *)
Lemma loadData_Ok_columns (names types : list string) (rows : list (list string))
    (g : string) (table : DataExtractorInput) :
  loadData (names :: types :: rows) g = Ok table ->
  exists p columns pc ptype,
    findPayloadColumn names g = Ok p /\
    length types = length names /\
    length columns = length names /\
    forallb supportedType types = true /\
    Forall (fun r => length r = length names) (nonBlank rows) /\
    (forall j type, types !! j = Some type ->
       exists c, columns !! j = Some c /\
         appendCells (map (fun r => r !!! j) (nonBlank rows)) (columnOfType type)
         = Ok c) /\
    types !! p = Some ptype /\ numericType ptype = true /\
    columns !! p = Some pc /\
    ConvertToEigenArrayVisitor pc = Ok (payloadArray table) /\
    storeColumns p 0 (map convertV1PathToV2Path names) columns
      (mkInput C [] ∅ ∅ [[]]) = Ok table.
Proof.
  intros Hload.
  destruct (loadData_Ok _ _ _ _ _ Hload)
    as (p & columns & Hp & Hlen & Halloc & Hrows & Hstore & _).
  destruct (allocateColumns_Ok _ _ _ _ _ Halloc) as (_ & Hsup & Hnum).
  assert (Hn : length (map columnOfType types) = length names)
    by (by rewrite length_map).
  rewrite <- Hn in Hrows.
  destruct (loadRows_Ok _ _ _ _ Hrows) as (Hlen' & Hshape & Hcols).
  rewrite Hn in Hlen', Hshape.
  destruct (lookup_lt_is_Some_2 types p) as [ptype Hptype].
  { rewrite Hlen. by eapply findPayloadColumn_lt. }
  destruct (Hcols p (columnOfType ptype)) as (pc & Hpc & _).
  { by rewrite list_lookup_fmap, Hptype. }
  destruct (storeColumns_Ok p _ _ 0 _ _ [] (eq_trans (length_map _ _)
              (eq_sym Hlen')) Hstore eq_refl)
    as (_ & _ & _ & _ & _ & Hpayload & _).
  specialize (Hpayload pc (Nat.le_0_l _)). rewrite Nat.sub_0_r in Hpayload.
  exists p, columns, pc, ptype. split_and!; try done.
  - intros j type Htype. apply Hcols. by rewrite list_lookup_fmap, Htype.
  - apply (Hnum ptype (Nat.le_0_l _)). by rewrite Nat.sub_0_r.
  - by apply Hpayload.
Qed.

Lemma loadData_Ok_nonBlank (names types : list string) (rows : list (list string))
    (g : string) (table : DataExtractorInput) :
  loadData (names :: types :: rows) g = Ok table ->
  length (payloadArray table) = length (nonBlank rows) /\ nonBlank rows <> [].
Proof.
  intros Hload.
  destruct (loadData_Ok_columns _ _ _ _ _ Hload)
    as (p & columns & pc & ptype & Hp & Hlen & Hlenc & Hsup & Hshape & Hcols
        & Hptype & Hnum & Hpc & Hconv & Hstore).
  destruct (loadData_Ok _ _ _ _ _ Hload) as (_ & _ & _ & _ & _ & _ & _ & Hpayload).
  destruct (Hcols p ptype Hptype) as (c & Hc & Hcells).
  rewrite Hpc in Hc. injection Hc as <-.
  apply appendCells_kind in Hcells as [_ Hsize].
  rewrite length_map, columnOfType_empty in Hsize.
  apply ConvertToEigenArrayVisitor_rows in Hconv as [Hrowsn _].
  rewrite Hsize in Hrowsn. split; [done|].
  intros Hnone. rewrite Hnone in Hrowsn. by destruct (payloadArray table).
Qed.

(** After the allocation loop and the row loop, the last loop succeeds:
    the payload column is numeric. *)
Lemma storeColumns_after_rows (p numValues row : nat) (names types : list string)
    (rows : list (list string)) (columns0 columns : list Coordinate)
    (result : DataExtractorInput) :
  allocateColumns p numValues 0 types = Ok columns0 ->
  loadRows (length types) row rows columns0 = Ok columns ->
  exists table, storeColumns p 0 names columns result = Ok table.
Proof.
  intros Halloc Hrows.
  destruct (allocateColumns_Ok _ _ _ _ _ Halloc) as (-> & Hsup & Hnum).
  apply storeColumns_succeeds. intros c _. rewrite Nat.sub_0_r. intros Hc.
  rewrite <- (length_map columnOfType) in Hrows.
  destruct (loadRows_Ok _ _ _ _ Hrows) as (Hlen & _ & _).
  destruct (lookup_lt_is_Some_2 (map columnOfType types) p) as [c0 Hc0].
  { rewrite <- Hlen. by eapply lookup_lt_Some. }
  destruct (loadRows_kinds _ _ _ _ p c0 Hrows Hc0) as (c' & Hc' & Hk & _).
  rewrite Hc in Hc'. injection Hc' as <-. rewrite Hk.
  apply list_lookup_fmap_Some in Hc0 as (type & -> & Htype).
  specialize (Hnum type (Nat.le_0_l _)). rewrite Nat.sub_0_r in Hnum.
  specialize (Hnum Htype). unfold numericType, columnOfType in *.
  by destruct (tagOf type) as [[| |]|].
Qed.

Lemma loadData_Ok_wellFormed (names types : list string)
    (rows : list (list string)) (g : string) (table : DataExtractorInput) :
  loadData (names :: types :: rows) g = Ok table ->
  wellFormed (names :: types :: rows) g = true.
Proof.
  intros Hload.
  destruct (loadData_Ok_columns _ _ _ _ _ Hload)
    as (p & columns & pc & ptype & Hp & Hlen & Hlenc & Hsup & Hshape & Hcols
        & Hptype & Hnum & Hpc & Hconv & Hstore).
  destruct (loadData_Ok _ _ _ _ _ Hload)
    as (p' & columns' & Hp' & _ & _ & Hrows & _ & Hpayload).
  destruct (findPayloadColumn_Ok names g p Hp) as (pname & Hpname & Hin & Huniq).
  unfold wellFormed, headerWellFormed.
  rewrite (findPayloadColumn_Ok_count _ _ _ Hp), Hlen, !Nat.eqb_refl, Hsup. simpl.
  apply andb_true_iff; split; [apply andb_true_iff; split|].
  - apply forallb_forall. intros [name type] Hnt. simpl.
    apply list_elem_of_In, list_elem_of_lookup in Hnt as [j Hj].
    apply lookup_zip_with_Some in Hj as (n' & t' & Heq & Hn' & Ht').
    injection Heq as -> ->.
    destruct (isInPayloadGroup g n') eqn:Hmatch; [|done]. simpl.
    rewrite (Huniq j n' Hn' Hmatch) in Ht'. congruence.
  - rewrite <- Hlen in Hrows.
    apply (loadRows_Ok_wellFormed types _ rows _ _ (columnOfType_kinds types Hsup) Hrows).
  - apply negb_true_iff, Nat.eqb_neq.
    destruct (loadData_Ok_nonBlank _ _ _ _ _ Hload) as [_ Hsome].
    by destruct (nonBlank rows).
Qed.

(** Well-formed files load. *)
Lemma wellFormed_loads (names types : list string) (rows : list (list string))
    (g : string) :
  wellFormed (names :: types :: rows) g = true ->
  exists table, loadData (names :: types :: rows) g = Ok table.
Proof.
  unfold wellFormed.
  intros [[Hheader Hrows]%andb_true_iff Hsome%negb_true_iff]%andb_true_iff.
  apply Nat.eqb_neq in Hsome.
  destruct (headerWellFormed_allocates _ _ _ Hheader)
    as (p & pname & ptype & Hp & Hpname & Hptype & Hnum & Hlen & Hsup & Halloc).
  destruct (loadRows_succeeds types numHeaderRows rows _
              (columnOfType_kinds types Hsup) Hrows) as [columns Hload].
  destruct (storeColumns_after_rows p (length rows) _
              (map convertV1PathToV2Path names) types _ _ _
              (mkInput C [] ∅ ∅ [[]]) (Halloc _) Hload) as [table Hstore].
  assert (Hne : rows <> []) by (by intros ->).
  assert (Hpayload : length (payloadArray table) = length (nonBlank rows)).
  { rewrite <- (length_map columnOfType) in Hload.
    destruct (loadRows_Ok _ _ _ _ Hload) as (Hlenc & _ & _).
    destruct (loadRows_kinds _ _ _ _ p (columnOfType ptype) Hload)
      as (pc & Hpc & _ & Hsize).
    { by rewrite list_lookup_fmap, Hptype. }
    destruct (storeColumns_Ok p _ _ 0 _ _ [] (eq_trans (length_map _ _)
                (eq_trans (eq_sym Hlen) (eq_trans (eq_sym (length_map _ _))
                   (eq_sym Hlenc)))) Hstore eq_refl)
      as (_ & _ & _ & _ & _ & Hconv & _).
    specialize (Hconv pc (Nat.le_0_l _)). rewrite Nat.sub_0_r in Hconv.
    apply ConvertToEigenArrayVisitor_rows in Hconv as [Hrowsn _]; [|done].
    by rewrite Hrowsn, Hsize, columnOfType_empty. }
  exists table. rewrite loadData_cons, Hp by done. cbn [bind].
  rewrite Hlen, Nat.eqb_refl. cbn [negb]. rewrite Halloc. cbn [bind].
  rewrite <- Hlen, Hload. cbn [bind]. rewrite Hstore. cbn [bind].
  destruct (Nat.eqb_spec (length (payloadArray table)) 0); [lia | done].
Qed.

(** X1.  Only well-formed files load: when [loadData] returns a table, the
    file satisfies the grammar (two header rows of the same length, exactly
    one column name in the payload group, supported tags, a numeric payload
    tag, data rows that are blank or hold one decodable cell per column, and
    at least one data row that is not blank). *)
Theorem loaded_files_are_well_formed (contents : list (list string)) (g : string)
    (table : DataExtractorInput) :
  loadData contents g = Ok table -> wellFormed contents g = true.
Proof.
  intros Hload.
  destruct contents as [|names [|types rows]];
    try (by rewrite loadData_short in Hload by (simpl; unfold numHeaderRows; lia)).
  by eapply loadData_Ok_wellFormed.
Qed.
End Stages.

Section Errors.
Context {C : Collaborators}.

(** X2.  Every loaded table has a payload array of at least one row, each
    row holding one value, with as many rows as the file has data rows that
    are not blank; it has exactly one dimension; [coordsVals] and
    [coord2DimMapping] have the same keys; and every coordinate column is as
    long as the payload array. *)
Theorem loaded_table_invariants (contents : list (list string)) (g : string)
    (table : DataExtractorInput) :
  loadData contents g = Ok table ->
  1 <= length (payloadArray table) /\
  Forall (fun r => length r = 1) (payloadArray table) /\
  length (payloadArray table) = length (nonBlank (dataRows contents)) /\
  length (dim2CoordMapping table) = 1 /\
  dom (coordsVals table) = dom (coord2DimMapping table) /\
  (forall name c, coordsVals table !! name = Some c ->
     columnSize c = length (payloadArray table)).
Proof.
  intros Hload.
  destruct contents as [|names [|types rows]];
    try (by rewrite loadData_short in Hload by (simpl; unfold numHeaderRows; lia)).
  destruct (loadData_Ok_columns _ _ _ _ _ Hload)
    as (p & columns & pc & ptype & Hp & Hlen & Hlenc & Hsup & Hshape & Hcols
        & Hptype & Hnum & Hpc & Hconv & Hstore).
  destruct (loadData_Ok _ _ _ _ _ Hload) as (_ & _ & _ & _ & _ & _ & _ & Hpayload).
  destruct (storeColumns_Ok p _ _ 0 _ _ [] (eq_trans (length_map _ _)
              (eq_sym Hlenc)) Hstore eq_refl)
    as (Hdims & Hdom & Hdom2 & Hvals & _ & _ & _).
  assert (Hsizes : forall j c, columns !! j = Some c ->
            columnSize c = length (nonBlank rows)).
  { intros j c Hc.
    destruct (lookup_lt_is_Some_2 types j) as [type Htype].
    { rewrite Hlen, <- Hlenc. by eapply lookup_lt_Some. }
    destruct (Hcols j type Htype) as (c' & Hc' & Hcells).
    rewrite Hc in Hc'. injection Hc' as <-.
    apply appendCells_kind in Hcells as [_ Hsize].
    by rewrite length_map, columnOfType_empty in Hsize. }
  destruct (ConvertToEigenArrayVisitor_rows _ _ Hconv) as [Hrowsn Hone].
  rewrite (Hsizes p pc Hpc) in Hrowsn.
  split_and!; try done.
  - destruct (payloadArray table); [done | simpl; lia].
  - by rewrite Hdims.
  - by rewrite Hdom, Hdom2.
  - intros name c Hc. destruct (Hvals name c Hc) as [Hin|Hin]; [done|].
    apply otherColumns_elem, list_elem_of_lookup in Hin as [j Hj].
    rewrite Hrowsn. by eapply Hsizes.
Qed.

Lemma findPayloadColumn_error (names : list string) (g : string) e :
  findPayloadColumn names g = Throw e ->
  e = NoPayloadColumnFound \/ e = AmbiguousPayloadColumn.
Proof.
  unfold findPayloadColumn. destruct (_ =? _); [intros [= <-]; by left|].
  destruct (any_of _ _); [intros [= <-]; by right | done].
Qed.

Lemma allocateColumns_error (p numValues column : nat) (types : list string) e :
  allocateColumns p numValues column types = Throw e ->
  e = PayloadMustBeNumeric \/ exists type, e = UnsupportedColumnType type.
Proof.
  revert column; induction types as [|type types IH]; intros column; simpl;
    [done|].
  rewrite allocateColumn_tagOf.
  destruct (tagOf type) as [[| |]|]; simpl;
    try (destruct (allocateColumns p numValues (S column) types) eqn:Hrest;
         simpl; [done | intros [= <-]; eauto]).
  - destruct (column =? p); simpl; [intros [= <-]; by left|].
    destruct (allocateColumns p numValues (S column) types) eqn:Hrest;
      simpl; [done | intros [= <-]; eauto].
  - intros [= <-]. eauto.
Qed.

Lemma loadRows_error_kind (n row : nat) (rows : list (list string))
    (columns : list Coordinate) e :
  loadRows n row rows columns = Throw e ->
  e = MalformedNumericLiteral \/ exists line, e = DataRowColumnCountMismatch line.
Proof.
  revert row columns; induction rows as [|r rows IH]; intros row columns;
    simpl; [done|].
  destruct (isEmptyLine r); [apply IH|].
  destruct (negb (length r =? n)); [intros [= <-]; eauto|].
  destruct (appendRow r columns) as [columns1|] eqn:Hrow; simpl; [apply IH|].
  intros [= <-]. left. eauto using appendRow_error.
Qed.

(** X3.  The overload of [ConvertToEigenArrayVisitor] for text columns
    ("should never be called") is never reached: no load fails with
    [eckit::NotImplemented]. *)
Theorem conversion_of_text_unreachable (contents : list (list string))
    (g : string) (e : LoadError) :
  loadData contents g = Throw e -> e <> NotImplemented.
Proof.
  intros Hload ->. revert Hload.
  destruct contents as [|names [|types rows]];
    try (by rewrite loadData_short by (simpl; unfold numHeaderRows; lia)).
  destruct rows as [|row rows];
    [by rewrite loadData_short by (simpl; unfold numHeaderRows; lia)|].
  rewrite loadData_cons by done.
  destruct (findPayloadColumn names g) as [p|e] eqn:Hp; cbn [bind].
  2: { by destruct (findPayloadColumn_error _ _ _ Hp) as [-> | ->]. }
  destruct (Nat.eqb_spec (length types) (length names)) as [Hlen|]; cbn [negb];
    [|done].
  destruct (allocateColumns p _ 0 types) as [columns0|e] eqn:Halloc; cbn [bind].
  2: { by destruct (allocateColumns_error _ _ _ _ _ Halloc) as [-> | [type ->]]. }
  rewrite <- Hlen.
  destruct (loadRows (length types) numHeaderRows (row :: rows) columns0)
    as [columns|e] eqn:Hrows; cbn [bind].
  2: { by destruct (loadRows_error_kind _ _ _ _ _ Hrows) as [-> | [line ->]]. }
  destruct (storeColumns_after_rows p _ _ (map convertV1PathToV2Path names)
              types _ _ _ (mkInput C [] ∅ ∅ [[]]) Halloc Hrows) as [table ->].
  cbn [bind]. by destruct (_ =? _).
Qed.
End Errors.

Section MoreErrors.
Context {C : Collaborators}.

Lemma loadRows_all_blank (n row : nat) (rows : list (list string))
    (columns : list Coordinate) :
  forallb blankRow rows = true -> loadRows n row rows columns = Ok columns.
Proof.
  revert row; induction rows as [|r rows IH]; intros row; simpl; [done|].
  rewrite <- isEmptyLine_blankRow. intros [-> Hrows]%andb_true_iff. by apply IH.
Qed.

Lemma storeColumns_payload_empty (p : nat) (names types : list string)
    (table : DataExtractorInput) :
  storeColumns p 0 names (map columnOfType types) (mkInput C [] ∅ ∅ [[]])
  = Ok table ->
  payloadArray table = [].
Proof.
  assert (Hgen : forall column names0 (result : DataExtractorInput),
            payloadArray result = [] ->
            storeColumns p column names0 (map columnOfType types) result = Ok table ->
            payloadArray table = []).
  { clear names. induction types as [|type types IH];
      intros column [|name names] result Hr;
      simpl; try (by intros [= <-]).
    unfold storeColumn. destruct (column =? p).
    - destruct (ConvertToEigenArrayVisitor (columnOfType type)) as [output|] eqn:Hout;
        simpl; [|done].
      apply IH. simpl. unfold columnOfType in Hout.
      destruct (tagOf type) as [[| |]|]; simpl in Hout; congruence.
    - simpl. by apply IH. }
  intros Hstore. by apply (Hgen 0 names (mkInput C [] ∅ ∅ [[]])).
Qed.

(** X4.  A file with well-formed header rows whose data rows are all
    blank lines passes the first size check and fails at the end, with
    NoDataLoaded (line 215). *)
Theorem blank_data_rows_load_nothing (names types : list string)
    (rows : list (list string)) (g : string) :
  headerWellFormed names types g = true ->
  rows <> [] ->
  forallb blankRow rows = true ->
  loadData (names :: types :: rows) g = Throw NoDataLoaded.
Proof.
  intros Hheader Hrows Hblank.
  destruct (headerWellFormed_allocates _ _ _ Hheader)
    as (p & pname & ptype & Hp & _ & Hptype & Hnum & Hlen & Hsup & Halloc).
  rewrite loadData_cons, Hp by done. cbn [bind].
  rewrite Hlen, Nat.eqb_refl. cbn [negb]. rewrite Halloc. cbn [bind].
  rewrite loadRows_all_blank by done. cbn [bind].
  destruct (storeColumns_succeeds p (map convertV1PathToV2Path names)
              (map columnOfType types) 0 (mkInput C [] ∅ ∅ [[]])) as [table Hstore].
  { intros c _. rewrite Nat.sub_0_r, list_lookup_fmap, Hptype. intros [= <-].
    unfold numericType, columnOfType in *. by destruct (tagOf ptype) as [[| |]|]. }
  rewrite Hstore. cbn [bind].
  by rewrite (storeColumns_payload_empty _ _ _ _ Hstore).
Qed.

(** X5.  A data row that is not blank and whose number of cells differs
    from the number of columns is reported with its 1-based line number in
    the file (the two header rows and the blank lines counted), when the
    header rows and the data rows before it are well formed. *)
Theorem short_row_reports_line (names types : list string)
    (before after : list (list string)) (row : list string) (g : string) :
  headerWellFormed names types g = true ->
  forallb (rowWellFormed types) before = true ->
  blankRow row = false ->
  length row <> length names ->
  loadData (names :: types :: before ++ row :: after) g
  = Throw (DataRowColumnCountMismatch (length before + 3)).
Proof.
  intros Hheader Hbefore Hblank Hlenr.
  destruct (headerWellFormed_allocates _ _ _ Hheader)
    as (p & pname & ptype & Hp & _ & Hptype & Hnum & Hlen & Hsup & Halloc).
  rewrite loadData_cons, Hp by (by destruct before). cbn [bind].
  rewrite Hlen, Nat.eqb_refl. cbn [negb]. rewrite Halloc. cbn [bind].
  rewrite loadRows_app.
  destruct (loadRows_succeeds types numHeaderRows before _
              (columnOfType_kinds types Hsup) Hbefore) as [columns Hload].
  rewrite Hlen in Hload. rewrite Hload. cbn [bind]. simpl.
  rewrite isEmptyLine_blankRow, Hblank.
  destruct (Nat.eqb_spec (length row) (length names)); [done|]. simpl.
  do 2 f_equal. unfold numHeaderRows. lia.
Qed.

Lemma allocateColumns_unsupported (p numValues column j : nat)
    (types : list string) (type : string) :
  types !! j = Some type ->
  supportedType type = false ->
  forallb supportedType (take j types) = true ->
  (forall ptype, column <= p < column + j -> types !! (p - column) = Some ptype ->
     numericType ptype = true) ->
  allocateColumns p numValues column types = Throw (UnsupportedColumnType type).
Proof.
  revert column j; induction types as [|type0 types IH]; intros column j;
    simpl; [done|].
  rewrite allocateColumn_tagOf. destruct j as [|j]; simpl.
  - intros [= ->] Hunsup _ _. unfold supportedType in Hunsup.
    by destruct (tagOf type) as [[| |]|].
  - intros Hj Hunsup [Hsup Hsups]%andb_true_iff Hnum.
    assert (Hrest : allocateColumns p numValues (S column) types
                    = Throw (UnsupportedColumnType type)).
    { apply (IH (S column) j); try done.
      intros ptype Hle Hp. apply Hnum; [lia|].
      by replace (p - column) with (S (p - S column)) by lia. }
    rewrite Hrest.
    unfold supportedType in Hsup.
    destruct (tagOf type0) as [[| |]|] eqn:Htag; try done.
    destruct (Nat.eqb_spec column p) as [->|]; [|done].
    specialize (Hnum type0). rewrite Nat.sub_diag in Hnum.
    specialize (Hnum ltac:(lia) eq_refl). unfold numericType in Hnum.
    by rewrite Htag in Hnum.
Qed.

(** X6.  The first type tag that is not supported is reported, with the
    tag itself, when the payload column is located, the header rows have
    the same length, and the payload column, if it comes before that tag,
    has a numeric tag. *)
Theorem unsupported_type_reported (names types : list string)
    (rows : list (list string)) (g : string) (p j : nat) (type : string) :
  rows <> [] ->
  findPayloadColumn names g = Ok p ->
  length types = length names ->
  types !! j = Some type ->
  supportedType type = false ->
  forallb supportedType (take j types) = true ->
  (p < j -> numericType (types !!! p) = true) ->
  loadData (names :: types :: rows) g = Throw (UnsupportedColumnType type).
Proof.
  intros Hrows Hp Hlen Hj Hunsup Hbefore Hnum.
  rewrite loadData_cons, Hp by done. cbn [bind].
  rewrite Hlen, Nat.eqb_refl. cbn [negb].
  rewrite (allocateColumns_unsupported p _ 0 j types type); try done.
  intros ptype [_ Hlt]. rewrite Nat.sub_0_r. intros Hptype.
  rewrite (list_lookup_total_correct _ _ _ Hptype) in Hnum. apply Hnum. lia.
Qed.
End MoreErrors.

Section Coordinates.
Context {C : Collaborators}.

(** A name that no later coordinate column bears keeps its entry. *)
Lemma storeColumns_frame (p : nat) (names : list string) (columns : list Coordinate) :
  forall (column : nat) (result result' : DataExtractorInput) (name : string),
  storeColumns p column names columns result = Ok result' ->
  (forall k name', column + k <> p -> names !! k = Some name' -> name' <> name) ->
  coordsVals result' !! name = coordsVals result !! name.
Proof.
  revert columns; induction names as [|name0 names IH];
    intros [|c columns] column result result' name; simpl;
    try (by intros [= <-]).
  unfold storeColumn. intros Hstore Hother.
  assert (Hrest : forall k name', S column + k <> p ->
            names !! k = Some name' -> name' <> name).
  { intros k name' Hk Hn. apply (Hother (S k)); [lia | done]. }
  destruct (Nat.eqb_spec column p) as [->|Hne].
  - destruct (ConvertToEigenArrayVisitor c) as [output|]; simpl in Hstore; [|done].
    by rewrite (IH _ _ _ _ _ Hstore Hrest).
  - simpl in Hstore. rewrite (IH _ _ _ _ _ Hstore Hrest). simpl.
    apply lookup_insert_ne. apply (Hother 0); [lia | done].
Qed.

(** The entry of a name is the last coordinate column that bears it. *)
Lemma storeColumns_last (p : nat) (names : list string) (columns : list Coordinate) :
  forall (column i : nat) (result result' : DataExtractorInput)
         (name : string) (c : Coordinate),
  storeColumns p column names columns result = Ok result' ->
  names !! i = Some name -> columns !! i = Some c -> column + i <> p ->
  (forall k name', i < k -> column + k <> p -> names !! k = Some name' ->
     name' <> name) ->
  coordsVals result' !! name = Some c.
Proof.
  revert columns; induction names as [|name0 names IH];
    intros [|c0 columns] column i result result' name c; simpl; try done.
  unfold storeColumn. intros Hstore Hname Hc Hi Hlater.
  destruct i as [|i]; simpl in *.
  - injection Hname as ->. injection Hc as ->.
    destruct (Nat.eqb_spec column p) as [->|Hne]; [lia|]. simpl in Hstore.
    rewrite (storeColumns_frame _ _ _ _ _ _ name Hstore); simpl.
    + apply lookup_insert_eq.
    + intros k name' Hk Hn. apply (Hlater (S k)); [lia | lia | done].
  - assert (Hrest : forall k name', i < k -> S column + k <> p ->
              names !! k = Some name' -> name' <> name).
    { intros k name' Hik Hk Hn. apply (Hlater (S k)); [lia | lia | done]. }
    destruct (Nat.eqb_spec column p) as [->|Hne].
    + destruct (ConvertToEigenArrayVisitor c0) as [output|]; simpl in Hstore;
        [|done].
      apply (IH _ _ i _ _ _ _ Hstore Hname Hc); [lia | done].
    + simpl in Hstore. apply (IH _ _ i _ _ _ _ Hstore Hname Hc); [lia | done].
Qed.

(** X7.  In a loaded table, a coordinate column is stored under its
    normalized name and holds the decoded cells of its column, for the data
    rows that are not blank, in row order; when several coordinate columns
    have the same normalized name, the last one is kept. *)
Theorem coordinate_holds_its_column (names types : list string)
    (rows : list (list string)) (g : string) (table : DataExtractorInput)
    (p j : nat) (name type : string) :
  loadData (names :: types :: rows) g = Ok table ->
  findPayloadColumn names g = Ok p ->
  j <> p ->
  names !! j = Some name ->
  types !! j = Some type ->
  (forall k name', j < k -> k <> p -> names !! k = Some name' ->
     convertV1PathToV2Path name' <> convertV1PathToV2Path name) ->
  exists c,
    coordsVals table !! convertV1PathToV2Path name = Some c /\
    appendCells (map (fun r => r !!! j) (nonBlank rows)) (columnOfType type) = Ok c.
Proof.
  intros Hload Hp Hj Hname Htype Hlater.
  destruct (loadData_Ok_columns _ _ _ _ _ Hload)
    as (p' & columns & pc & ptype & Hp' & Hlen & Hlenc & Hsup & Hshape & Hcols
        & Hptype & Hnum & Hpc & Hconv & Hstore).
  rewrite Hp in Hp'. injection Hp' as <-.
  destruct (Hcols j type Htype) as (c & Hc & Hcells).
  exists c. split; [|done].
  apply (storeColumns_last p _ _ 0 j _ _ _ _ Hstore); try done.
  - by rewrite list_lookup_fmap, Hname.
  - intros k name' Hjk Hk. rewrite list_lookup_fmap.
    destruct (names !! k) as [n|] eqn:Hn; simpl; [|done].
    intros [= <-]. by apply (Hlater k n).
Qed.

Lemma appendCells_text (cells : list string) :
  forall (values : list string),
  appendCells cells (StringColumn values)
  = Ok (StringColumn (values ++ map stringValue cells)).
Proof.
  induction cells as [|cell cells IH]; intros values; simpl.
  - by rewrite app_nil_r.
  - by rewrite IH, <- app_assoc.
Qed.

(** X8.  A coordinate column declared [string] or [datetime] holds the
    text of its cells as it is, in row order, with the placeholder replaced
    by the missing-text value; a [datetime] cell is not parsed. *)
Theorem text_coordinate_verbatim (names types : list string)
    (rows : list (list string)) (g : string) (table : DataExtractorInput)
    (p j : nat) (name type : string) :
  loadData (names :: types :: rows) g = Ok table ->
  findPayloadColumn names g = Ok p ->
  j <> p ->
  names !! j = Some name ->
  types !! j = Some type ->
  type = "string" \/ type = "datetime" ->
  (forall k name', j < k -> k <> p -> names !! k = Some name' ->
     convertV1PathToV2Path name' <> convertV1PathToV2Path name) ->
  coordsVals table !! convertV1PathToV2Path name
  = Some (StringColumn (map (fun r => stringValue (r !!! j)) (nonBlank rows))).
Proof.
  intros Hload Hp Hj Hname Htype Htext Hlater.
  destruct (loadData_Ok_columns _ _ _ _ _ Hload)
    as (p' & columns & pc & ptype & Hp' & Hlen & Hlenc & Hsup & Hshape & Hcols
        & Hptype & Hnum & Hpc & Hconv & Hstore).
  rewrite Hp in Hp'. injection Hp' as <-.
  destruct (Hcols j type Htype) as (c & Hc & Hcells).
  assert (Hcol : columnOfType type = StringColumn [])
    by (by destruct Htext as [-> | ->]).
  rewrite Hcol, appendCells_text in Hcells. injection Hcells as <-.
  simpl in Hc. rewrite map_map in Hc.
  apply (storeColumns_last p _ _ 0 j _ _ _ _ Hstore); try done.
  - by rewrite list_lookup_fmap, Hname.
  - intros k name' Hjk Hk. rewrite list_lookup_fmap.
    destruct (names !! k) as [n|] eqn:Hn; simpl; [|done].
    intros [= <-]. by apply (Hlater k n).
Qed.
End Coordinates.

Section Narrowing.
Context {C : Collaborators}.

(** X9.  A cell of an integer column that eckit reads as the [long long]
    [v] is stored as a 32-bit [int] congruent to [v] modulo 2^32: as [v]
    itself when [v] fits, and wrapped around, without an error, when it
    does not. *)
Theorem integer_literal_narrowed (cell : string) (v : Z) :
  String.eqb cell missingValuePlaceholder = false ->
  as_longlong cell = Some v ->
  exists z,
    intValue cell = Ok z /\
    (- 2 ^ 31 <= z < 2 ^ 31)%Z /\
    ((z - v) mod 2 ^ 32 = 0)%Z /\
    ((- 2 ^ 31 <= v < 2 ^ 31)%Z -> z = v).
Proof.
  intros Hph Hv. exists (static_cast_int v). unfold intValue.
  rewrite Hph, Hv. unfold static_cast_int.
  split; [done|]. split; [|split].
  - pose proof (Z.mod_pos_bound (v + 2 ^ 31) (2 ^ 32) ltac:(lia)). lia.
  - replace ((v + 2 ^ 31) mod 2 ^ 32 - 2 ^ 31 - v)%Z
      with ((v + 2 ^ 31) mod 2 ^ 32 - (v + 2 ^ 31))%Z by lia.
    rewrite Zminus_mod, Z.mod_mod, Z.sub_diag by lia. done.
  - intros Hrange. rewrite Z.mod_small by lia. lia.
Qed.

Lemma allocateColumn_sameTag (p numValues column : nat) (type type' : string) :
  sameTag type type' = true ->
  allocateColumn p numValues column type = allocateColumn p numValues column type'.
Proof.
  unfold sameTag. rewrite !allocateColumn_tagOf.
  destruct (String.eqb_spec type type') as [->|_]; [done|]. simpl.
  by destruct (tagOf type) as [[| |]|], (tagOf type') as [[| |]|].
Qed.

(** X10.  The aliases of a type tag are interchangeable: replacing tags
    of the type row by tags of the same kind ([string] and [datetime],
    [int] and [integer]) changes neither the table nor the error of a
    load. *)
Theorem type_aliases_interchangeable (names types types' : list string)
    (rows : list (list string)) (g : string) :
  length types = length types' ->
  forallb (fun tt => sameTag tt.1 tt.2) (zip types types') = true ->
  loadData (names :: types :: rows) g = loadData (names :: types' :: rows) g.
Proof.
  intros Hlen Hsame.
  assert (Halloc : forall p numValues column,
            allocateColumns p numValues column types
            = allocateColumns p numValues column types').
  { intros p numValues. revert types' Hlen Hsame.
    induction types as [|type types IH]; intros [|type' types'] Hlen Hsame column;
      simpl in *; try done.
    apply andb_true_iff in Hsame as [Hs Hsame].
    rewrite (allocateColumn_sameTag _ _ _ _ _ Hs), (IH types'); [done | lia | done]. }
  destruct rows as [|row rows]; [by rewrite !loadData_short by (simpl; unfold numHeaderRows; lia)|].
  rewrite !loadData_cons by done.
  destruct (findPayloadColumn names g) as [p|]; cbn [bind]; [|done].
  by rewrite Halloc, Hlen.
Qed.

Lemma loadRows_nonBlank (n row row' : nat) (rows : list (list string))
    (columns columns' : list Coordinate) :
  loadRows n row rows columns = Ok columns' ->
  loadRows n row' (nonBlank rows) columns = Ok columns'.
Proof.
  revert row row' columns; induction rows as [|r rows IH];
    intros row row' columns; simpl; [done|].
  unfold nonBlank. simpl. rewrite <- isEmptyLine_blankRow.
  destruct (isEmptyLine r) eqn:Hr; simpl; [apply IH|].
  rewrite Hr. destruct (negb (length r =? n)); [done|].
  destruct (appendRow r columns); simpl; [apply IH | done].
Qed.

(** X11.  A file that loads, loads to the same table once all its blank
    lines are removed. *)
Theorem blank_lines_can_be_dropped (names types : list string)
    (rows : list (list string)) (g : string) (table : DataExtractorInput) :
  loadData (names :: types :: rows) g = Ok table ->
  loadData (names :: types :: nonBlank rows) g = Ok table.
Proof.
  intros Hload.
  destruct (loadData_Ok_nonBlank _ _ _ _ _ Hload) as [_ Hsome].
  destruct (loadData_Ok _ _ _ _ _ Hload)
    as (p & columns & Hp & Hlen & Halloc & Hrows & Hstore & Hpayload).
  rewrite loadData_cons, Hp by done. cbn [bind].
  rewrite Hlen, Nat.eqb_refl. cbn [negb].
  rewrite (allocateColumns_numValues p _ (length rows)), Halloc. cbn [bind].
  rewrite (loadRows_nonBlank _ _ numHeaderRows _ _ _ Hrows). cbn [bind].
  rewrite Hstore. cbn [bind]. by destruct (payloadArray table).
Qed.
End Narrowing.

Section Concatenation.
Context {C : Collaborators}.

Lemma AppendValueVisitor_columnApp (value : string) (c1 c0 c0' : Coordinate) :
  kindOf c1 = kindOf c0 ->
  AppendValueVisitor value c0 = Ok c0' ->
  AppendValueVisitor value (columnApp c1 c0) = Ok (columnApp c1 c0') /\
  kindOf c1 = kindOf c0'.
Proof.
  destruct c1 as [v1|v1|v1], c0 as [v0|v0|v0]; simpl; try done; intros _.
  - destruct (intValue value); simpl; [|done]. intros [= <-]. simpl.
    by rewrite app_assoc.
  - destruct (floatValue value); simpl; [|done]. intros [= <-]. simpl.
    by rewrite app_assoc.
  - intros [= <-]. simpl. by rewrite app_assoc.
Qed.

Lemma appendRow_columnApp (row : list string) (columns1 columns0 columns0' : list Coordinate) :
  Forall2 (fun c1 c0 => kindOf c1 = kindOf c0) columns1 columns0 ->
  appendRow row columns0 = Ok columns0' ->
  appendRow row (zip_with columnApp columns1 columns0)
  = Ok (zip_with columnApp columns1 columns0') /\
  Forall2 (fun c1 c0 => kindOf c1 = kindOf c0) columns1 columns0'.
Proof.
  intros Hkinds; revert row columns0';
    induction Hkinds as [|c1 c0 columns1 columns0 Hk Hks IH];
    intros [|value row] columns0'; simpl; try (intros [= <-]; by repeat constructor).
  destruct (AppendValueVisitor value c0) as [c0'|] eqn:Hc; simpl; [|done].
  destruct (appendRow row columns0) as [columns0''|] eqn:Hrow; simpl; [|done].
  intros [= <-].
  destruct (AppendValueVisitor_columnApp _ _ _ _ Hk Hc) as [-> Hk'].
  destruct (IH _ _ Hrow) as [-> Hks']. simpl. split; [done | by constructor].
Qed.

Lemma loadRows_columnApp (n row row' : nat) (rows : list (list string))
    (columns1 columns0 columns0' : list Coordinate) :
  Forall2 (fun c1 c0 => kindOf c1 = kindOf c0) columns1 columns0 ->
  loadRows n row rows columns0 = Ok columns0' ->
  loadRows n row' rows (zip_with columnApp columns1 columns0)
  = Ok (zip_with columnApp columns1 columns0').
Proof.
  revert row row' columns0; induction rows as [|r rows IH];
    intros row row' columns0 Hkinds; simpl; [by intros [= <-]|].
  destruct (isEmptyLine r); [by apply IH|].
  destruct (negb (length r =? n)); [done|].
  destruct (appendRow r columns0) as [columns0''|] eqn:Hrow; simpl; [|done].
  destruct (appendRow_columnApp _ _ _ _ Hkinds Hrow) as [-> Hkinds'].
  simpl. by apply IH.
Qed.

Lemma columnApp_empty (c1 : Coordinate) (type : string) :
  tagOf type = Some (kindOf c1) -> columnApp c1 (columnOfType type) = c1.
Proof.
  unfold columnOfType. intros ->.
  destruct c1; simpl; by rewrite app_nil_r.
Qed.

Lemma ConvertToEigenArrayVisitor_columnApp (c1 c2 : Coordinate)
    (output1 output2 : list (list float)) :
  ConvertToEigenArrayVisitor c1 = Ok output1 ->
  ConvertToEigenArrayVisitor c2 = Ok output2 ->
  kindOf c1 = kindOf c2 ->
  ConvertToEigenArrayVisitor (columnApp c1 c2) = Ok (output1 ++ output2)%list.
Proof.
  destruct c1, c2; simpl; try done; intros [= <-] [= <-] _; by rewrite map_app.
Qed.

(** The entry of a name comes from the last coordinate column that bears
    it, or was there before the loop when no coordinate column bears it. *)
Lemma storeColumns_lookup_inv (p : nat) (names : list string)
    (columns : list Coordinate) :
  forall (column : nat) (result result' : DataExtractorInput)
         (name : string) (c : Coordinate),
  length names = length columns ->
  storeColumns p column names columns result = Ok result' ->
  coordsVals result' !! name = Some c ->
  (coordsVals result !! name = Some c /\
   forall k name', column + k <> p -> names !! k = Some name' -> name' <> name) \/
  exists i, names !! i = Some name /\ columns !! i = Some c /\ column + i <> p /\
    forall k name', i < k -> column + k <> p -> names !! k = Some name' ->
      name' <> name.
Proof.
  revert columns; induction names as [|name0 names IH];
    intros [|c0 columns] column result result' name c; simpl; try done.
  - intros _ [= <-]. by left.
  - intros [= Hlen]. unfold storeColumn.
    destruct (Nat.eqb_spec column p) as [->|Hne].
    + destruct (ConvertToEigenArrayVisitor c0) as [output|]; simpl; [|done].
      intros Hstore Hc.
      destruct (IH _ _ _ _ _ _ Hlen Hstore Hc)
        as [[Hin Hno]|(i & Hn & Hci & Hi & Hl)].
      * left. split; [done|]. intros [|k] name' Hk; [lia|]. simpl.
        apply Hno. lia.
      * right. exists (S i). split_and!; try done; [lia|].
        intros [|k] name' Hik Hk; [lia|]. simpl. apply Hl; lia.
    + simpl. intros Hstore Hc.
      destruct (IH _ _ _ _ _ _ Hlen Hstore Hc)
        as [[Hin Hno]|(i & Hn & Hci & Hi & Hl)].
      * simpl in Hin. destruct (decide (name0 = name)) as [->|Hnn].
        -- rewrite lookup_insert_eq in Hin. injection Hin as ->.
           right. exists 0. split_and!; try done; [lia|].
           intros [|k] name' Hik Hk; [lia|]. simpl. apply Hno. lia.
        -- rewrite lookup_insert_ne in Hin by done. left. split; [done|].
           intros [|k] name' Hk; simpl; [by intros [= <-]|]. apply Hno. lia.
      * right. exists (S i). split_and!; try done; [lia|].
        intros [|k] name' Hik Hk; [lia|]. simpl. apply Hl; lia.
Qed.

(** X12.  When two files with the same header rows load, so does the file
    that holds the data rows of the first followed by those of the second:
    its payload array is the first payload array followed by the second,
    its coordinate names are the same, and each coordinate holds the values
    of the first file followed by those of the second. *)
Theorem concatenated_rows_concatenate_tables (names types : list string)
    (rows1 rows2 : list (list string)) (g : string)
    (table1 table2 : DataExtractorInput) :
  loadData (names :: types :: rows1) g = Ok table1 ->
  loadData (names :: types :: rows2) g = Ok table2 ->
  exists table,
    loadData (names :: types :: rows1 ++ rows2) g = Ok table /\
    payloadArray table = (payloadArray table1 ++ payloadArray table2)%list /\
    dim2CoordMapping table = dim2CoordMapping table1 /\
    forall name c1 c2,
      coordsVals table1 !! name = Some c1 ->
      coordsVals table2 !! name = Some c2 ->
      coordsVals table !! name = Some (columnApp c1 c2).
Proof.
  intros Hload1 Hload2.
  destruct (loadData_Ok _ _ _ _ _ Hload1)
    as (p & columns1 & Hp & Hlen & Halloc1 & Hrows1 & Hstore1 & Hpayload1).
  destruct (loadData_Ok _ _ _ _ _ Hload2)
    as (p' & columns2 & Hp' & _ & _ & Hrows2 & Hstore2 & _).
  rewrite Hp in Hp'. injection Hp' as <-.
  destruct (allocateColumns_Ok _ _ _ _ _ Halloc1) as (_ & Hsup & Hnum).
  assert (Hn : length (map columnOfType types) = length names)
    by (by rewrite length_map).
  rewrite <- Hn in Hrows1, Hrows2.
  destruct (loadRows_Ok _ _ _ _ Hrows1) as (Hlen1 & _ & _).
  destruct (loadRows_Ok _ _ _ _ Hrows2) as (Hlen2 & _ & _).
  (* the columns of the first file have the declared kinds *)
  assert (Hkinds1 : Forall2 (fun c1 c0 => kindOf c1 = kindOf c0)
                      columns1 (map columnOfType types)).
  { apply Forall2_same_length_lookup. split; [done|].
    intros j c1 c0 Hc1 Hc0.
    destruct (loadRows_kinds _ _ _ _ j c0 Hrows1 Hc0) as (c & Hc & Hk & _).
    congruence. }
  assert (Hid : zip_with columnApp columns1 (map columnOfType types) = columns1).
  { apply list_eq. intros j. rewrite lookup_zip_with.
    destruct (columns1 !! j) as [c1|] eqn:Hc1; simpl; [|done].
    destruct (lookup_lt_is_Some_2 (map columnOfType types) j) as [c0 Hc0].
    { rewrite <- Hlen1. by eapply lookup_lt_Some. }
    rewrite Hc0. simpl. f_equal.
    pose proof (Forall2_lookup_lr _ _ _ _ _ _ Hkinds1 Hc1 Hc0) as Hk.
    apply list_lookup_fmap_Some in Hc0 as (type & -> & Htype).
    apply columnApp_empty. rewrite Hk. apply kindOf_columnOfType.
    rewrite forallb_forall in Hsup. apply Hsup.
    apply list_elem_of_In, list_elem_of_lookup. eauto. }
  pose proof (loadRows_columnApp _ _ (numHeaderRows + length rows1) _ _ _ _
                Hkinds1 Hrows2) as Hrows12.
  rewrite Hid in Hrows12.
  set (columns := zip_with columnApp columns1 columns2) in *.
  assert (Hlenc : length columns = length names).
  { unfold columns. rewrite length_zip_with. lia. }
  (* the payload column *)
  destruct (lookup_lt_is_Some_2 columns1 p) as [pc1 Hpc1].
  { rewrite Hlen1, Hn. by eapply findPayloadColumn_lt. }
  destruct (lookup_lt_is_Some_2 columns2 p) as [pc2 Hpc2].
  { rewrite Hlen2, Hn. by eapply findPayloadColumn_lt. }
  assert (Hpk : kindOf pc1 = kindOf pc2).
  { destruct (lookup_lt_is_Some_2 (map columnOfType types) p) as [c0 Hc0].
    { rewrite <- Hlen1. by eapply lookup_lt_Some. }
    destruct (loadRows_kinds _ _ _ _ p c0 Hrows1 Hc0) as (c & Hc & Hk & _).
    destruct (loadRows_kinds _ _ _ _ p c0 Hrows2 Hc0) as (c' & Hc' & Hk' & _).
    congruence. }
  assert (Hlens1 : length (map convertV1PathToV2Path names) = length columns1)
    by (rewrite length_map; lia).
  assert (Hlens2 : length (map convertV1PathToV2Path names) = length columns2)
    by (rewrite length_map; lia).
  assert (Hlens : length (map convertV1PathToV2Path names) = length columns)
    by (rewrite length_map; lia).
  destruct (storeColumns_Ok p _ _ 0 _ _ [] Hlens1 Hstore1 eq_refl)
    as (Hdims1 & _ & _ & _ & _ & Hconv1 & _).
  destruct (storeColumns_Ok p _ _ 0 _ _ [] Hlens2 Hstore2 eq_refl)
    as (_ & _ & _ & _ & _ & Hconv2 & _).
  specialize (Hconv1 pc1 (Nat.le_0_l _)). rewrite Nat.sub_0_r in Hconv1.
  specialize (Hconv1 Hpc1).
  specialize (Hconv2 pc2 (Nat.le_0_l _)). rewrite Nat.sub_0_r in Hconv2.
  specialize (Hconv2 Hpc2).
  assert (Hpc : columns !! p = Some (columnApp pc1 pc2)).
  { unfold columns. by rewrite lookup_zip_with, Hpc1, Hpc2. }
  destruct (storeColumns_succeeds p (map convertV1PathToV2Path names) columns 0
              (mkInput C [] ∅ ∅ [[]])) as [table Hstore].
  { intros c _. rewrite Nat.sub_0_r, Hpc. intros [= <-].
    destruct pc1, pc2; simpl in *; done. }
  destruct (storeColumns_Ok p _ _ 0 _ _ [] Hlens Hstore eq_refl)
    as (Hdims & _ & _ & _ & _ & Hconv & _).
  specialize (Hconv (columnApp pc1 pc2) (Nat.le_0_l _)).
  rewrite Nat.sub_0_r in Hconv.
  specialize (Hconv Hpc).
  rewrite (ConvertToEigenArrayVisitor_columnApp _ _ _ _ Hconv1 Hconv2 Hpk) in Hconv.
  injection Hconv as Hconv.
  exists table. split_and!.
  - rewrite loadData_cons, Hp by (by destruct rows1, rows2). cbn [bind].
    rewrite Hlen, Nat.eqb_refl. cbn [negb].
    rewrite (allocateColumns_numValues p _ (length rows1)), Halloc1. cbn [bind].
    rewrite loadRows_app. rewrite <- Hn, Hrows1. cbn [bind].
    rewrite Hrows12. cbn [bind]. rewrite Hstore. cbn [bind].
    rewrite <- Hconv. destruct (payloadArray table1); [done|]. done.
  - done.
  - by rewrite Hdims, Hdims1.
  - intros name c1 c2 Hc1 Hc2.
    destruct (storeColumns_lookup_inv p _ _ 0 _ _ _ _ Hlens1 Hstore1 Hc1)
      as [[Hin _]|(i1 & Hn1 & Hci1 & Hi1 & Hl1)]; [done|].
    destruct (storeColumns_lookup_inv p _ _ 0 _ _ _ _ Hlens2 Hstore2 Hc2)
      as [[Hin _]|(i2 & Hn2 & Hci2 & Hi2 & Hl2)]; [done|].
    assert (i1 = i2) as <-.
    { destruct (Nat.lt_trichotomy i1 i2) as [Hlt|[Heq|Hgt]]; [|done|].
      - by destruct (Hl1 i2 name Hlt Hi2 Hn2).
      - by destruct (Hl2 i1 name Hgt Hi1 Hn1). }
    apply (storeColumns_last p _ _ 0 i1 _ _ _ _ Hstore); try done.
    unfold columns. by rewrite lookup_zip_with, Hci1, Hci2.
Qed.
End Concatenation.

Section Moved.
Context {A : Type}.
Implicit Types l : list A.

Lemma movedTo_length (p p' : nat) l l' :
  movedTo p p' l l' -> length l' = length l /\ p < length l /\ p' < length l'.
Proof.
  intros ([x Hx] & Hp & Hdel).
  assert (Hx' : l' !! p' = Some x) by congruence.
  pose proof (lookup_lt_Some _ _ _ Hx). pose proof (lookup_lt_Some _ _ _ Hx').
  pose proof (f_equal length Hdel) as Hlen.
  rewrite !length_delete in Hlen by eauto. lia.
Qed.

Lemma Forall_delete_middle (P : A -> Prop) (p : nat) l (x : A) :
  l !! p = Some x -> Forall P l <-> P x /\ Forall P (delete p l).
Proof.
  intros Hx. rewrite <- (take_drop_middle l p x Hx) at 1.
  rewrite delete_take_drop, !Forall_app, Forall_cons. tauto.
Qed.

Lemma movedTo_Forall (P : A -> Prop) (p p' : nat) l l' :
  movedTo p p' l l' -> Forall P l -> Forall P l'.
Proof.
  intros ([x Hx] & Hp & Hdel) Hall.
  assert (Hx' : l' !! p' = Some x) by congruence.
  apply (Forall_delete_middle P p' l' x Hx').
  apply (Forall_delete_middle P p l x Hx) in Hall. by rewrite <- Hdel.
Qed.

Lemma filter_delete_middle (f : A -> bool) (p : nat) l (x : A) :
  l !! p = Some x ->
  length (List.filter f l)
  = (if f x then 1 else 0) + length (List.filter f (delete p l)).
Proof.
  revert p; induction l as [|y l IH]; intros [|p]; simpl; try done.
  - intros [= ->]. destruct (f x); simpl; lia.
  - intros Hx. specialize (IH p Hx). destruct (f y), (f x); simpl in *; lia.
Qed.

Lemma movedTo_filter (f : A -> bool) (p p' : nat) l l' :
  movedTo p p' l l' ->
  length (List.filter f l') = length (List.filter f l).
Proof.
  intros ([x Hx] & Hp & Hdel).
  assert (Hx' : l' !! p' = Some x) by congruence.
  by rewrite (filter_delete_middle f p l x Hx),
    (filter_delete_middle f p' l' x Hx'), Hdel.
Qed.

Lemma lookup_delete_skip (p i : nat) l : delete p l !! i = l !! skip p i.
Proof.
  unfold skip. destruct (Nat.ltb_spec i p).
  - by apply list_lookup_delete_lt.
  - by apply list_lookup_delete_ge.
Qed.

Lemma skip_ne (p i : nat) : skip p i <> p.
Proof. unfold skip. destruct (Nat.ltb_spec i p); lia. Qed.

Lemma skip_surj (p j : nat) : j <> p -> exists i, skip p i = j.
Proof.
  intros Hj. unfold skip. destruct (decide (j < p)).
  - exists j. destruct (Nat.ltb_spec j p); lia.
  - exists (j - 1). destruct (Nat.ltb_spec (j - 1) p); lia.
Qed.

Lemma movedTo_lookup (p p' i : nat) l l' :
  movedTo p p' l l' -> l !! skip p i = l' !! skip p' i.
Proof. intros (_ & _ & Hdel). by rewrite <- !lookup_delete_skip, Hdel. Qed.
End Moved.

Lemma delete_zip {A B : Type} (p : nat) (a : list A) (b : list B) :
  delete p (zip a b) = zip (delete p a) (delete p b).
Proof.
  revert p b; induction a as [|x a IH]; intros [|p] [|y b]; simpl; try done.
  - by destruct a.
  - by rewrite IH.
Qed.

Lemma movedTo_zip {A B : Type} (p p' : nat) (a a' : list A) (b b' : list B) :
  movedTo p p' a a' -> movedTo p p' b b' ->
  movedTo p p' (zip a b) (zip a' b').
Proof.
  intros ([x Hx] & Hp & Hdel) ([y Hy] & Hq & Hdel').
  assert (Hx' : a' !! p' = Some x) by congruence.
  assert (Hy' : b' !! p' = Some y) by congruence.
  split_and!.
  - exists (x, y). apply lookup_zip_with_Some. eauto.
  - transitivity (Some (x, y)); [|symmetry];
      apply lookup_zip_with_Some; eauto.
  - by rewrite !delete_zip, Hdel, Hdel'.
Qed.

Section Position.
Context {C : Collaborators}.

Lemma forallb_Forall {A : Type} (f : A -> bool) (l : list A) :
  forallb f l = true <-> Forall (fun x => f x = true) l.
Proof.
  induction l as [|x l IH]; simpl; [by split; [constructor|]|].
  rewrite andb_true_iff, Forall_cons, IH. done.
Qed.

Lemma movedTo_forallb {A : Type} (f : A -> bool) (p p' : nat) (l l' : list A) :
  movedTo p p' l l' -> forallb f l = true -> forallb f l' = true.
Proof. rewrite !forallb_Forall. apply movedTo_Forall. Qed.

Lemma rowMovedTo_blank (p p' : nat) (row row' : list string) :
  rowMovedTo p p' row row' -> blankRow row' = blankRow row.
Proof.
  intros [[_ ->]|[Hblank Hmoved]]; [done|]. rewrite Hblank.
  unfold blankRow in *. apply bool_decide_eq_false. intros ->.
  apply bool_decide_eq_false in Hblank. apply Hblank.
  destruct (movedTo_length _ _ _ _ Hmoved) as (Hlen & Hp & Hp').
  destruct Hmoved as (_ & Hcell & _). simpl in *.
  destruct row as [|cell [|cell' row]]; simpl in *; try lia.
  replace p with 0 in Hcell by lia. replace p' with 0 in Hcell by lia.
  simpl in Hcell. congruence.
Qed.

Lemma rowMovedTo_wellFormed (p p' : nat) (types types' row row' : list string) :
  movedTo p p' types types' ->
  rowMovedTo p p' row row' ->
  rowWellFormed types row = true -> rowWellFormed types' row' = true.
Proof.
  intros Htypes Hrow. unfold rowWellFormed.
  rewrite (rowMovedTo_blank _ _ _ _ Hrow).
  destruct Hrow as [[-> _]|[-> Hmoved]]; [done|]. simpl.
  intros [Hlen%Nat.eqb_eq Hcells]%andb_true_iff.
  destruct (movedTo_length _ _ _ _ Htypes) as (Hlent & _).
  destruct (movedTo_length _ _ _ _ Hmoved) as (Hlenr & _).
  apply andb_true_iff. split; [apply Nat.eqb_eq; lia|].
  by apply (movedTo_forallb _ p p' (zip types row)); [apply movedTo_zip|].
Qed.

Lemma rowMovedTo_nonBlank (p p' : nat) (rows rows' : list (list string)) :
  Forall2 (rowMovedTo p p') rows rows' ->
  Forall2 (movedTo p p') (nonBlank rows) (nonBlank rows').
Proof.
  induction 1 as [|row row' rows rows' Hrow Hrows IH]; [constructor|].
  unfold nonBlank. simpl. rewrite (rowMovedTo_blank _ _ _ _ Hrow).
  destruct Hrow as [[-> _]|[-> Hmoved]]; simpl; [done | by constructor].
Qed.

Lemma wellFormed_moved (names types names' types' : list string)
    (rows rows' : list (list string)) (g : string) (p p' : nat) :
  movedTo p p' names names' ->
  movedTo p p' types types' ->
  Forall2 (rowMovedTo p p') rows rows' ->
  wellFormed (names :: types :: rows) g = true ->
  wellFormed (names' :: types' :: rows') g = true.
Proof.
  intros Hnames Htypes Hrows. unfold wellFormed, headerWellFormed.
  intros [[[[[Hone Hlen%Nat.eqb_eq]%andb_true_iff Hsup]%andb_true_iff
              Hnum]%andb_true_iff Hwf]%andb_true_iff Hsome]%andb_true_iff.
  destruct (movedTo_length _ _ _ _ Hnames) as (Hlenn & _).
  destruct (movedTo_length _ _ _ _ Htypes) as (Hlent & _).
  rewrite (movedTo_filter _ _ _ _ _ Hnames), Hone. simpl.
  rewrite (proj2 (Nat.eqb_eq _ _)) by lia. simpl.
  rewrite (movedTo_forallb _ _ _ _ _ Htypes Hsup). simpl.
  rewrite (movedTo_forallb _ _ _ _ _ (movedTo_zip _ _ _ _ _ _ Hnames Htypes) Hnum).
  simpl.
  rewrite <- (Forall2_length _ _ _ (rowMovedTo_nonBlank _ _ _ _ Hrows)), Hsome.
  rewrite andb_true_r. clear Hsome.
  induction Hrows as [|row row' rows rows' Hrow Hrows IH]; simpl in *; [done|].
  apply andb_true_iff in Hwf as [Hr Hwf].
  by rewrite (rowMovedTo_wellFormed _ _ _ _ _ _ Htypes Hrow Hr), IH.
Qed.

Lemma movedTo_cells (p p' j j' : nat) (rows rows' : list (list string)) :
  Forall2 (movedTo p p') rows rows' ->
  (forall row row' : list string, movedTo p p' row row' -> row !! j = row' !! j') ->
  map (fun r => r !!! j) rows = map (fun r => r !!! j') rows'.
Proof.
  intros Hrows Hj. induction Hrows as [|row row' rows rows' Hrow Hrows IH];
    simpl; [done|].
  by rewrite IH, !list_lookup_total_alt, (Hj row row' Hrow).
Qed.

(** The two maps that the last loop fills. *)
Lemma storeColumns_maps (p : nat) (names : list string) (columns : list Coordinate) :
  forall (column : nat) (result result' : DataExtractorInput),
  length names = length columns ->
  storeColumns p column names columns result = Ok result' ->
  coordsVals result'
  = foldl (fun m nc => <[nc.1 := nc.2]> m) (coordsVals result)
      (zip (otherColumns p column names) (otherColumns p column columns)) /\
  coord2DimMapping result'
  = foldl (fun m n => <[n := firstDim]> m) (coord2DimMapping result)
      (otherColumns p column names).
Proof.
  revert columns; induction names as [|name names IH];
    intros [|c columns] column result result'; simpl; try done.
  - by intros _ [= <-].
  - intros [= Hlen]. unfold storeColumn.
    destruct (column =? p).
    + destruct (ConvertToEigenArrayVisitor c) as [output|]; simpl; [|done].
      intros Hstore. by destruct (IH _ _ _ _ Hlen Hstore) as [-> ->].
    + simpl. intros Hstore. by destruct (IH _ _ _ _ Hlen Hstore) as [-> ->].
Qed.

(** X13.  The payload column is found by its name, not by its position:
    moving it (its name, its type tag and its cell in every data row that
    is not blank) to another position, the other columns keeping their
    order, gives the same table. *)
Theorem payload_position_irrelevant (names types names' types' : list string)
    (rows rows' : list (list string)) (g : string) (p p' : nat)
    (table : DataExtractorInput) :
  loadData (names :: types :: rows) g = Ok table ->
  findPayloadColumn names g = Ok p ->
  movedTo p p' names names' ->
  movedTo p p' types types' ->
  Forall2 (rowMovedTo p p') rows rows' ->
  loadData (names' :: types' :: rows') g = Ok table.
Proof.
  intros Hload Hp Hnames Htypes Hrows.
  pose proof (loadData_Ok_wellFormed _ _ _ _ _ Hload) as Hwf.
  destruct (wellFormed_loads _ _ _ _
              (wellFormed_moved _ _ _ _ _ _ _ _ _ Hnames Htypes Hrows Hwf))
    as [table' Hload'].
  rewrite Hload'. f_equal.
  destruct (loadData_Ok_columns _ _ _ _ _ Hload)
    as (q & columns & pc & ptype & Hq & Hlen & Hlenc & Hsup & Hshape & Hcols
        & Hptype & Hnum & Hpc & Hconv & Hstore).
  rewrite Hp in Hq. injection Hq as <-.
  destruct (loadData_Ok_columns _ _ _ _ _ Hload')
    as (q' & columns' & pc' & ptype' & Hq' & Hlen' & Hlenc' & Hsup' & Hshape'
        & Hcols' & Hptype' & Hnum' & Hpc' & Hconv' & Hstore').
  (* the payload column of the second file is at [p'] *)
  destruct (findPayloadColumn_Ok names g p Hp) as (pname & Hpname & Hin & _).
  destruct (findPayloadColumn_Ok names' g q' Hq') as (_ & _ & _ & Huniq').
  assert (q' = p') as ->.
  { symmetry. apply (Huniq' p' pname); [|done].
    destruct Hnames as (_ & Heq & _). congruence. }
  pose proof (rowMovedTo_nonBlank _ _ _ _ Hrows) as Hnb.
  destruct (movedTo_length _ _ _ _ Hnames) as (Hlenn & Hplt & Hplt').
  (* the same payload column *)
  assert (ptype' = ptype) as ->.
  { destruct Htypes as (_ & Heq & _). congruence. }
  assert (pc' = pc) as ->.
  { destruct (Hcols p ptype Hptype) as (c & Hc & Hcells).
    destruct (Hcols' p' ptype Hptype') as (c' & Hc' & Hcells').
    rewrite <- (movedTo_cells p p' p p' _ _ Hnb) in Hcells'
      by (by intros row row' (_ & Heq & _)).
    congruence. }
  (* the same coordinate columns *)
  assert (Hdel : delete p columns = delete p' columns').
  { apply list_eq. intros i. rewrite !lookup_delete_skip.
    destruct (types !! skip p i) as [type|] eqn:Htype.
    - pose proof Htype as Htype'.
      rewrite (movedTo_lookup p p' i _ _ Htypes) in Htype'.
      destruct (Hcols _ _ Htype) as (c & Hc & Hcells).
      destruct (Hcols' _ _ Htype') as (c' & Hc' & Hcells').
      rewrite <- (movedTo_cells p p' (skip p i) (skip p' i) _ _ Hnb) in Hcells'
        by (intros row row'; apply movedTo_lookup).
      congruence.
    - pose proof Htype as Htype'.
      rewrite (movedTo_lookup p p' i _ _ Htypes) in Htype'.
      apply lookup_ge_None in Htype, Htype'.
      rewrite (proj2 (lookup_ge_None columns _)) by lia.
      by rewrite (proj2 (lookup_ge_None columns' _)) by lia. }
  assert (Hdeln : delete p (map convertV1PathToV2Path names)
                  = delete p' (map convertV1PathToV2Path names')).
  { destruct Hnames as (_ & _ & Heq). by rewrite <- !list_fmap_delete, Heq. }
  assert (Hl : length (map convertV1PathToV2Path names) = length columns)
    by (rewrite length_map; lia).
  assert (Hl' : length (map convertV1PathToV2Path names') = length columns')
    by (rewrite length_map; lia).
  destruct (storeColumns_Ok p _ _ 0 _ _ [] Hl Hstore eq_refl) as (Hdims & _).
  destruct (storeColumns_Ok p' _ _ 0 _ _ [] Hl' Hstore' eq_refl) as (Hdims' & _).
  destruct (storeColumns_maps p _ _ 0 _ _ Hl Hstore) as [Hvals Hdim].
  destruct (storeColumns_maps p' _ _ 0 _ _ Hl' Hstore') as [Hvals' Hdim'].
  rewrite !otherColumns_delete, !Nat.sub_0_r in Hdims, Hdims', Hvals, Hvals',
    Hdim, Hdim' by lia.
  rewrite (otherColumns_delete p 0 columns), Nat.sub_0_r in Hvals by lia.
  rewrite (otherColumns_delete p' 0 columns'), Nat.sub_0_r in Hvals' by lia.
  rewrite Hconv in Hconv'. injection Hconv' as Hpayload.
  rewrite <- Hdeln in Hdims', Hvals', Hdim'. rewrite <- Hdel in Hvals'.
  destruct table, table'. simpl in *. congruence.
Qed.
End Position.

(** ** The further properties at concrete files *)

Section MoreInstances.
Local Existing Instance Reference.collaborators.

Lemma loaded_files_are_well_formed_scenario :
  exists table,
    loadData scenario "ErrorInflation" = Ok table /\
    wellFormed scenario "ErrorInflation" = true.
Proof.
  eexists.
  eassert (Hload : loadData scenario "ErrorInflation" = Ok _) by reflexivity.
  split; [exact Hload|].
  exact (loaded_files_are_well_formed scenario "ErrorInflation" _ Hload).
Defined.

Lemma loaded_table_invariants_scenario :
  exists table,
    loadData scenario_blank "ErrorInflation" = Ok table /\
    length (payloadArray table) = 2 /\
    length (dim2CoordMapping table) = 1 /\
    dom (coordsVals table) = dom (coord2DimMapping table) /\
    (forall name c, coordsVals table !! name = Some c ->
       columnSize c = length (payloadArray table)).
Proof.
  eexists.
  eassert (Hload : loadData scenario_blank "ErrorInflation" = Ok _) by reflexivity.
  destruct (loaded_table_invariants scenario_blank "ErrorInflation" _ Hload)
    as (_ & _ & Hrows & Hdims & Hdom & Hsizes).
  split_and!; [exact Hload | exact Hrows | exact Hdims | exact Hdom | exact Hsizes].
Defined.

Lemma conversion_of_text_unreachable_mismatched :
  loadData mismatched_headers "G" = Throw NoPayloadColumnFound /\
  NoPayloadColumnFound <> NotImplemented.
Proof.
  split; [reflexivity|].
  apply (conversion_of_text_unreachable mismatched_headers "G"). reflexivity.
Defined.

Lemma blank_data_rows_load_nothing_scenario :
  loadData [["station"; "pressure@ErrorInflation"]; ["string"; "float"];
            [""]; [""]] "ErrorInflation"
  = Throw NoDataLoaded.
Proof.
  apply (blank_data_rows_load_nothing
           ["station"; "pressure@ErrorInflation"] ["string"; "float"]
           [[""]; [""]] "ErrorInflation");
    [reflexivity | discriminate | reflexivity].
Defined.

Lemma short_row_reports_line_scenario :
  loadData [["station"; "pressure@ErrorInflation"]; ["string"; "float"];
            ["A"; "1.5"]; [""]; ["B"]; ["C"; "3"]] "ErrorInflation"
  = Throw (DataRowColumnCountMismatch 5).
Proof.
  apply (short_row_reports_line
           ["station"; "pressure@ErrorInflation"] ["string"; "float"]
           [["A"; "1.5"]; [""]] [["C"; "3"]] ["B"] "ErrorInflation");
    [reflexivity | reflexivity | reflexivity | simpl; lia].
Defined.

Lemma unsupported_type_reported_scenario :
  loadData [["station"; "pressure@ErrorInflation"; "height"];
            ["string"; "float"; "double"];
            ["A"; "1.5"; "2"]] "ErrorInflation"
  = Throw (UnsupportedColumnType "double").
Proof.
  apply (unsupported_type_reported
           ["station"; "pressure@ErrorInflation"; "height"]
           ["string"; "float"; "double"] [["A"; "1.5"; "2"]]
           "ErrorInflation" 1 2 "double");
    [discriminate | reflexivity | reflexivity | reflexivity | reflexivity
    | reflexivity | intros _; reflexivity].
Defined.

Lemma coordinate_holds_its_column_repeated :
  exists table c,
    loadData repeated_name "G" = Ok table /\
    coordsVals table !! "a" = Some c /\
    appendCells ["2"] (IntColumn []) = Ok c.
Proof.
  eexists.
  eassert (Hload : loadData repeated_name "G" = Ok _) by reflexivity.
  destruct (coordinate_holds_its_column ["a"; "a"; "p@G"] ["int"; "int"; "float"]
              [["1"; "2"; "3.5"]] "G" _ 2 1 "a" "int" Hload eq_refl
              ltac:(lia) eq_refl eq_refl) as (c & Hc & Hcells).
  { intros [|[|[|k]]] name' Hjk Hk Hname; simpl in Hname; try lia; done. }
  exists c. split_and!; [exact Hload | exact Hc | exact Hcells].
Defined.

Lemma text_coordinate_verbatim_scenario :
  exists table,
    loadData [["station"; "pressure@ErrorInflation"]; ["datetime"; "float"];
              ["2021-01-01T00:00:00Z"; "1.5"]; ["_"; "2.25"]] "ErrorInflation"
    = Ok table /\
    coordsVals table !! "station"
    = Some (StringColumn ["2021-01-01T00:00:00Z"; "MISSING*"]).
Proof.
  eexists.
  eassert (Hload : loadData [["station"; "pressure@ErrorInflation"];
                             ["datetime"; "float"];
                             ["2021-01-01T00:00:00Z"; "1.5"]; ["_"; "2.25"]]
                     "ErrorInflation" = Ok _) by reflexivity.
  split; [exact Hload|].
  apply (text_coordinate_verbatim ["station"; "pressure@ErrorInflation"]
           ["datetime"; "float"]
           [["2021-01-01T00:00:00Z"; "1.5"]; ["_"; "2.25"]] "ErrorInflation"
           _ 1 0 "station" "datetime" Hload eq_refl ltac:(lia) eq_refl eq_refl
           (or_intror eq_refl)).
  intros [|[|k]] name' Hjk Hk Hname; simpl in Hname; try lia; done.
Defined.

Lemma integer_literal_narrowed_wraps :
  as_longlong "4294967297" = Some 4294967297%Z /\
  exists z,
    intValue "4294967297" = Ok z /\
    (- 2 ^ 31 <= z < 2 ^ 31)%Z /\
    ((z - 4294967297) mod 2 ^ 32 = 0)%Z /\
    ((- 2 ^ 31 <= 4294967297 < 2 ^ 31)%Z -> z = 4294967297%Z).
Proof.
  split; [reflexivity|].
  apply (integer_literal_narrowed "4294967297" 4294967297); reflexivity.
Defined.

Lemma type_aliases_interchangeable_scenario :
  loadData [["station"; "count@ErrorInflation"]; ["string"; "int"];
            ["A"; "3"]] "ErrorInflation"
  = loadData [["station"; "count@ErrorInflation"]; ["datetime"; "integer"];
              ["A"; "3"]] "ErrorInflation".
Proof.
  apply (type_aliases_interchangeable ["station"; "count@ErrorInflation"]
           ["string"; "int"] ["datetime"; "integer"] [["A"; "3"]]
           "ErrorInflation");
    reflexivity.
Defined.

Lemma blank_lines_can_be_dropped_scenario :
  exists table,
    loadData scenario_blank "ErrorInflation" = Ok table /\
    loadData scenario "ErrorInflation" = Ok table.
Proof.
  eexists.
  eassert (Hload : loadData scenario_blank "ErrorInflation" = Ok _) by reflexivity.
  split; [exact Hload|].
  exact (blank_lines_can_be_dropped ["station"; "pressure@ErrorInflation"]
           ["string"; "float"] [["A"; "1.5"]; [""]; ["B"; "2.25"]]
           "ErrorInflation" _ Hload).
Defined.

Lemma concatenated_rows_concatenate_tables_scenario :
  exists table1 table2 table,
    loadData [["station"; "pressure@ErrorInflation"]; ["string"; "float"];
              ["A"; "1.5"]] "ErrorInflation" = Ok table1 /\
    loadData [["station"; "pressure@ErrorInflation"]; ["string"; "float"];
              ["B"; "2.25"]] "ErrorInflation" = Ok table2 /\
    loadData scenario "ErrorInflation" = Ok table /\
    payloadArray table = (payloadArray table1 ++ payloadArray table2)%list /\
    dim2CoordMapping table = dim2CoordMapping table1.
Proof.
  eexists. eexists.
  eassert (Hload1 : loadData [["station"; "pressure@ErrorInflation"];
                              ["string"; "float"]; ["A"; "1.5"]]
                      "ErrorInflation" = Ok _) by reflexivity.
  eassert (Hload2 : loadData [["station"; "pressure@ErrorInflation"];
                              ["string"; "float"]; ["B"; "2.25"]]
                      "ErrorInflation" = Ok _) by reflexivity.
  destruct (concatenated_rows_concatenate_tables
              ["station"; "pressure@ErrorInflation"] ["string"; "float"]
              [["A"; "1.5"]] [["B"; "2.25"]] "ErrorInflation" _ _ Hload1 Hload2)
    as (table & Hload & Hpayload & Hdims & _).
  exists table.
  split_and!; [exact Hload1 | exact Hload2 | exact Hload | exact Hpayload
              | exact Hdims].
Defined.

Lemma payload_position_irrelevant_scenario :
  exists table,
    loadData scenario "ErrorInflation" = Ok table /\
    loadData [["pressure@ErrorInflation"; "station"]; ["float"; "string"];
              ["1.5"; "A"]; ["2.25"; "B"]] "ErrorInflation" = Ok table.
Proof.
  eexists.
  eassert (Hload : loadData scenario "ErrorInflation" = Ok _) by reflexivity.
  split; [exact Hload|].
  apply (payload_position_irrelevant ["station"; "pressure@ErrorInflation"]
           ["string"; "float"] ["pressure@ErrorInflation"; "station"]
           ["float"; "string"] [["A"; "1.5"]; ["B"; "2.25"]]
           [["1.5"; "A"]; ["2.25"; "B"]] "ErrorInflation" 1 0 _ Hload eq_refl).
  - by split_and!; [eexists | |].
  - by split_and!; [eexists | |].
  - apply Forall2_cons; split;
      [right; split; [reflexivity|]; by split_and!; [eexists | |]|].
    apply Forall2_cons; split;
      [right; split; [reflexivity|]; by split_and!; [eexists | |]|].
    apply Forall2_nil. done.
Defined.
End MoreInstances.
